(** * Word2Vec tutorial notebook (docs/notebooks/word2vec.ipynb)

    Shallow embedding of the Python code of the tutorial notebook: the
    toy-data cell, the iterator classes [MySentences] and [MyText], the
    corpus fixtures handed to gensim, and the order of the gensim calls.

    Python text is modelled on ASCII strings ([String.string]).  The
    file system is a finite map from (trailing-slash normalised) paths to
    nodes.  Generators are small-step machines whose [next] either yields,
    stops or raises; [list(gen)] is the big-step relation [drains]. *)

From Stdlib Require Import Ascii String List Arith Lia Bool.
From stdpp Require Import base gmap strings list.
Import ListNotations.
Open Scope string_scope.

(* ------------------------------------------------------------------ *)
(** ** Python string primitives *)

(** Python's [str.isspace] restricted to ASCII: [' '], [\t], [\n],
    [\x0b], [\x0c], [\r] and the separators [\x1c]..[\x1f]. *)
Definition py_isspace (c : ascii) : bool :=
  let n := nat_of_ascii c in
  Nat.eqb n 32 || (Nat.leb 9 n && Nat.leb n 13) || (Nat.leb 28 n && Nat.leb n 31).

(** [str.split()] with no separator: maximal runs of non-whitespace,
    leading/trailing whitespace dropped.  [cur] is the token being read. *)
Fixpoint split_go (s : string) (cur : string) : list string :=
  match s with
  | EmptyString => if String.eqb cur "" then [] else [cur]
  | String c s' =>
      if py_isspace c
      then (if String.eqb cur "" then split_go s' "" else cur :: split_go s' "")
      else split_go s' (String.append cur (String c EmptyString))
  end.

Definition py_split (s : string) : list string := split_go s "".

(** [str.lower()] on ASCII. *)
Definition ascii_lower (c : ascii) : ascii :=
  let n := nat_of_ascii c in
  if Nat.leb 65 n && Nat.leb n 90 then ascii_of_nat (n + 32) else c.

Fixpoint py_lower (s : string) : string :=
  match s with
  | EmptyString => EmptyString
  | String c s' => String (ascii_lower c) (py_lower s')
  end.

Definition LF : ascii := ascii_of_nat 10.
Definition CR : ascii := ascii_of_nat 13.

(** Universal-newline translation done by [open(..)] in text mode:
    ["\r\n"] and ["\r"] both read as ["\n"]. *)
Fixpoint universal_newlines (s : string) : string :=
  match s with
  | EmptyString => EmptyString
  | String c s' =>
      if Ascii.eqb c CR then
        match s' with
        | String c' s'' =>
            if Ascii.eqb c' LF then String LF (universal_newlines s'')
            else String LF (universal_newlines s')
        | EmptyString => String LF EmptyString
        end
      else String c (universal_newlines s')
  end.

(** Iterating a text file: lines ending in ["\n"] (kept), the last line
    possibly without it; an empty file has no line. *)
Fixpoint lines_go (s : string) (cur : string) : list string :=
  match s with
  | EmptyString => if String.eqb cur "" then [] else [cur]
  | String c s' =>
      if Ascii.eqb c LF
      then String.append cur (String LF EmptyString) :: lines_go s' ""
      else lines_go s' (String.append cur (String c EmptyString))
  end.

Definition file_lines (contents : string) : list string :=
  lines_go (universal_newlines contents) "".

(* ------------------------------------------------------------------ *)
(** ** Errors and the result monad *)

Inductive py_error :=
| FileNotFoundError
| NotADirectoryError
| IsADirectoryError
| FileExistsError
| IndexError.

Definition is_FileExistsError (e : py_error) : bool :=
  match e with FileExistsError => true | _ => false end.

Inductive result (A : Type) :=
| Ok (a : A)
| Err (e : py_error).
Arguments Ok {A} a.
Arguments Err {A} e.

Definition bind {A B} (m : result A) (k : A -> result B) : result B :=
  match m with Ok a => k a | Err e => Err e end.

Declare Scope py_scope.
Notation "x <- m ;; k" := (bind m (fun x => k))
  (at level 100, m at next level, right associativity) : py_scope.
Open Scope py_scope.

(* ------------------------------------------------------------------ *)
(** ** Paths ([posixpath]) *)

Definition SLASH : ascii := "/"%char.

Definition ends_slash (p : string) : bool :=
  match rev (list_ascii_of_string p) with
  | c :: _ => Ascii.eqb c SLASH
  | [] => false
  end.

Fixpoint drop_slashes (l : list ascii) : list ascii :=
  match l with
  | c :: l' => if Ascii.eqb c SLASH then drop_slashes l' else l
  | [] => []
  end.

(** [p.rstrip('/')], keeping a path made only of slashes as it is. *)
Definition rstrip_slashes (p : string) : string :=
  let r := drop_slashes (rev (list_ascii_of_string p)) in
  match r with
  | [] => p
  | _ => string_of_list_ascii (rev r)
  end.

(** The key under which a path is stored: trailing slashes dropped. *)
Definition norm_path (p : string) : string := rstrip_slashes p.

(** [posixpath.split]: [i = p.rfind('/') + 1; head, tail = p[:i], p[i:]]
    and [head] loses its trailing slashes unless it is all slashes. *)
Fixpoint split_last_slash (rl : list ascii) (tail : list ascii)
  : list ascii * list ascii :=
  match rl with
  | [] => ([], tail)
  | c :: rl' =>
      if Ascii.eqb c SLASH then (rev rl, tail)
      else split_last_slash rl' (c :: tail)
  end.

Definition path_split (p : string) : string * string :=
  let '(h, t) := split_last_slash (rev (list_ascii_of_string p)) [] in
  (rstrip_slashes (string_of_list_ascii h), string_of_list_ascii t).

(** [posixpath.join(a, b)] for two components. *)
Definition path_join (a b : string) : string :=
  match b with
  | String c _ => if Ascii.eqb c SLASH then b
                  else if String.eqb a "" || ends_slash a then String.append a b
                  else String.append a (String.append "/" b)
  | EmptyString => if String.eqb a "" || ends_slash a then a
                   else String.append a "/"
  end.

(* ------------------------------------------------------------------ *)
(** ** The file system *)

(** A directory keeps the names of its entries.  Their order is the one
    [os.listdir] returns here; the operating system fixes no order, so
    statements that need one take the listing as a hypothesis. *)
Inductive node :=
| Dir (entries : list string)
| File (contents : string).

Abbreviation fs := (gmap string node).

Definition fs_get (f : fs) (p : string) : option node := f !! norm_path p.

(** Directory holding [p] (the current directory ["."] for a bare name). *)
Definition parent_of (p : string) : string * string :=
  let '(h, t) := path_split (norm_path p) in
  (if String.eqb h "" then "." else h, t).

(** [os.listdir(p)] *)
Definition os_listdir (f : fs) (p : string) : result (list string) :=
  match fs_get f p with
  | Some (Dir ns) => Ok ns
  | Some (File _) => Err NotADirectoryError
  | None => Err FileNotFoundError
  end.

(** [open(p)] for reading: the decoded contents. *)
Definition open_read (f : fs) (p : string) : result string :=
  match fs_get f p with
  | Some (File c) => if ends_slash p then Err NotADirectoryError else Ok c
  | Some (Dir _) => Err IsADirectoryError
  | None => Err FileNotFoundError
  end.

(** [os.path.exists(p)]: a trailing slash asks for a directory. *)
Definition os_path_exists (f : fs) (p : string) : bool :=
  match fs_get f p with
  | Some (Dir _) => true
  | Some (File _) => negb (ends_slash p)
  | None => false
  end.

(** Add [name] to the entries of directory [d] if it is not there (at the
    end: one of the orders a listing may have). *)
Definition link_entry (f : fs) (d name : string) : result fs :=
  match f !! d with
  | Some (Dir ns) =>
      Ok (if existsb (String.eqb name) ns then f else <[d := Dir (ns ++ [name])]> f)
  | Some (File _) => Err NotADirectoryError
  | None => Err FileNotFoundError
  end.

(** [os.mkdir(p)] *)
Definition os_mkdir (f : fs) (p : string) : result fs :=
  match fs_get f p with
  | Some _ => Err FileExistsError
  | None =>
      let '(d, t) := parent_of p in
      f' <- link_entry f d t ;;
      Ok (<[norm_path p := Dir []]> f')
  end.

(** [os.makedirs(name)] (exist_ok=False), recursion bounded by the
    length of the path, which shrinks at each recursive call:
<<
    head, tail = path.split(name)
    if not tail:
        head, tail = path.split(head)
    if head and tail and not path.exists(head):
        try:
            makedirs(head, mode, exist_ok)
        except FileExistsError:
            pass
        if tail == curdir:
            return
    mkdir(name, mode)
>>
    A failing call leaves no trace here: on the paths this notebook
    creates, only [os.mkdir] of an absent directory can change the file
    system, and it either succeeds or changes nothing. *)
Fixpoint makedirs_go (fuel : nat) (f : fs) (name : string) : result fs :=
  match fuel with
  | O => os_mkdir f name
  | S fuel' =>
      let '(h0, t0) := path_split name in
      let '(h, t) := if String.eqb t0 "" then path_split h0 else (h0, t0) in
      if negb (String.eqb h "") && negb (String.eqb t "") && negb (os_path_exists f h)
      then
        match makedirs_go fuel' f h with
        | Err e => if is_FileExistsError e
                   then (if String.eqb t "." then Ok f else os_mkdir f name)
                   else Err e
        | Ok f1 => if String.eqb t "." then Ok f1 else os_mkdir f1 name
        end
      else os_mkdir f name
  end.

Definition os_makedirs (f : fs) (name : string) : result fs :=
  makedirs_go (String.length name) f name.

(** [open(p, 'w')] (what [smart_open.smart_open] does on a local path):
    create or truncate the file. *)
Definition open_write (f : fs) (p : string) : result fs :=
  match fs_get f p with
  | Some (Dir _) => Err IsADirectoryError
  | _ =>
      let '(d, t) := parent_of p in
      f' <- link_entry f d t ;;
      Ok (<[norm_path p := File ""]> f')
  end.

(** [fout.write(s)] on the file opened at [p]. *)
Definition file_write (f : fs) (p : string) (s : string) : fs :=
  match fs_get f p with
  | Some (File c) => <[norm_path p := File (String.append c s)]> f
  | _ => f
  end.


(* ------------------------------------------------------------------ *)
(** ** Generators and [list(..)] *)

Abbreviation sentence := (list string).

(** Outcome of one [next(gen)] call. *)
Inductive step_out (G : Type) :=
| Yield (s : sentence) (g : G)
| Stop
| Raise (e : py_error).
Arguments Yield {G} s g.
Arguments Stop {G}.
Arguments Raise {G} e.

Definition cons_result (s : sentence) (r : result (list sentence))
  : result (list sentence) :=
  match r with Ok l => Ok (s :: l) | Err e => Err e end.

(** [list(gen)]: collect every yielded sentence; an exception raised by
    [next] propagates (nothing catches it). *)
Inductive drains {G} (next : G -> step_out G) : G -> result (list sentence) -> Prop :=
| drains_stop g : next g = Stop -> drains next g (Ok [])
| drains_raise g e : next g = Raise e -> drains next g (Err e)
| drains_yield g s g' r :
    next g = Yield s g' -> drains next g' r -> drains next g (cons_result s r).

(** Executable [list(gen)], with a bound on the number of [next] calls. *)
Fixpoint drain_fuel {G} (next : G -> step_out G) (fuel : nat) (g : G)
  : option (result (list sentence)) :=
  match fuel with
  | O => None
  | S fuel' =>
      match next g with
      | Stop => Some (Ok [])
      | Raise e => Some (Err e)
      | Yield s g' => option_map (cons_result s) (drain_fuel next fuel' g')
      end
  end.

(** [next(gen)] called repeatedly: from [g] the generator yields the
    sentences [ss] in order and is then suspended in [g']. *)
Inductive yields {G} (next : G -> step_out G) : G -> list sentence -> G -> Prop :=
| yields_nil g : yields next g [] g
| yields_cons g s g' ss g'' :
    next g = Yield s g' -> yields next g' ss g'' -> yields next g (s :: ss) g''.

(* ------------------------------------------------------------------ *)
(** ** [class MySentences] *)

(** [def __init__(self, dirname): self.dirname = dirname] *)
Record MySentences := mkMySentences { dirname : string }.

(** Suspended states of the generator of [MySentences.__iter__]:
<<
    def __iter__(self):
        for fname in os.listdir(self.dirname):
            for line in open(os.path.join(self.dirname, fname)):
                yield line.split()
>> *)
Inductive ms_gen :=
| MS_start (d : string)
| MS_lines (d : string) (fnames : list string) (lines : list string).

(** Move on to the next file of the listing, opening it. *)
Fixpoint ms_advance (f : fs) (d : string) (fnames : list string) : step_out ms_gen :=
  match fnames with
  | [] => Stop
  | fname :: rest =>
      match open_read f (path_join d fname) with
      | Err e => Raise e
      | Ok c =>
          match file_lines c with
          | [] => ms_advance f d rest
          | line :: lines => Yield (py_split line) (MS_lines d rest lines)
          end
      end
  end.

Definition ms_next (f : fs) (g : ms_gen) : step_out ms_gen :=
  match g with
  | MS_start d =>
      match os_listdir f d with
      | Err e => Raise e
      | Ok fnames => ms_advance f d fnames
      end
  | MS_lines d rest (line :: lines) => Yield (py_split line) (MS_lines d rest lines)
  | MS_lines d rest [] => ms_advance f d rest
  end.

(** [iter(obj)]: a fresh generator reading [self.dirname]; the object
    itself is not written. *)
Definition MySentences_iter (self : MySentences) : ms_gen := MS_start (dirname self).


(** [list(MySentences(d))] over the file system [f]. *)
Definition list_MySentences (f : fs) (self : MySentences) (r : result (list sentence)) : Prop :=
  drains (ms_next f) (MySentences_iter self) r.

(* ------------------------------------------------------------------ *)
(** ** [class MyText] *)

(** Suspended states of the generator of [MyText.__iter__]:
<<
    def __iter__(self):
        for line in open(lee_train_file):
            yield line.lower().split()
>>
    [lee_train_file] is the notebook's global, passed explicitly. *)
Record MyText := mkMyText {}.

Inductive mt_gen :=
| MT_start
| MT_lines (lines : list string).

Definition mt_next (f : fs) (lee_train_file : string) (g : mt_gen) : step_out mt_gen :=
  match g with
  | MT_start =>
      match open_read f lee_train_file with
      | Err e => Raise e
      | Ok c =>
          match file_lines c with
          | [] => Stop
          | line :: lines => Yield (py_split (py_lower line)) (MT_lines lines)
          end
      end
  | MT_lines (line :: lines) => Yield (py_split (py_lower line)) (MT_lines lines)
  | MT_lines [] => Stop
  end.

Definition MyText_iter (self : MyText) : mt_gen := MT_start.

Definition list_MyText (f : fs) (lee_train_file : string) (self : MyText)
  (r : result (list sentence)) : Prop :=
  drains (mt_next f lee_train_file) (MyText_iter self) r.


(* ------------------------------------------------------------------ *)
(** ** The toy-data cell (cell 5)
<<
    if not os.path.exists('./data/'):
        os.makedirs('./data/')
    filenames = ['./data/f1.txt', './data/f2.txt']
    for i, fname in enumerate(filenames):
        with smart_open.smart_open(fname, 'w') as fout:
            for line in sentences[i]:
                fout.write(line + '\n')
>> *)

Definition NL : string := String LF EmptyString.

Definition filenames : list string := ["./data/f1.txt"; "./data/f2.txt"].

(** The [with] block: open for writing, then one [write] per token. *)
Definition write_tokens (f : fs) (fname : string) (toks : list string) : result fs :=
  f1 <- open_write f fname ;;
  Ok (fold_left (fun f line => file_write f fname (String.append line NL)) toks f1).

(** [sentences[i]] *)
Definition py_index {A} (l : list A) (i : nat) : result A :=
  match nth_error l i with Some x => Ok x | None => Err IndexError end.

(** [for i, fname in enumerate(filenames): with open(fname, 'w') as fout:
    for line in sentences[i]: fout.write(line + '\n')]: the file is
    opened (created or truncated) before [sentences[i]] is read.  The
    result pairs the file system left behind with how the loop ended:
    an exception keeps what was written before it. *)
Fixpoint write_files (f : fs) (fnames : list string) (i : nat)
  (sentences : list (list string)) : fs * result unit :=
  match fnames with
  | [] => (f, Ok tt)
  | fname :: rest =>
      match open_write f fname with
      | Err e => (f, Err e)
      | Ok f1 =>
          match py_index sentences i with
          | Err e => (f1, Err e)
          | Ok toks =>
              write_files
                (fold_left (fun f line => file_write f fname (String.append line NL)) toks f1)
                rest (S i) sentences
          end
      end
  end.

(** [if not os.path.exists('./data/'): os.makedirs('./data/')] *)
Definition make_data_dir (f : fs) : result fs :=
  if negb (os_path_exists f "./data/") then os_makedirs f "./data/" else Ok f.

(** A run of cell 5: the file system at its end and how it ended. *)
Definition cell_toy_data_run (f : fs) (sentences : list (list string)) : fs * result unit :=
  match make_data_dir f with
  | Err e => (f, Err e)
  | Ok f0 => write_files f0 filenames 0 sentences
  end.

(** Cell 5 as a fallible function: the final file system when the cell
    completes, its exception otherwise. *)
Definition cell_toy_data (f : fs) (sentences : list (list string)) : result fs :=
  match cell_toy_data_run f sentences with
  | (f', Ok _) => Ok f'
  | (_, Err e) => Err e
  end.

(** [sentences = [['first', 'sentence'], ['second', 'sentence']]] (cell 3) *)
Definition toy_sentences : list (list string) :=
  [["first"; "sentence"]; ["second"; "sentence"]].

(* ------------------------------------------------------------------ *)
(** ** Corpus arguments handed to gensim *)

(** The Python values written as literals in the notebook. *)
#[local] Set Warnings "-register-all".
Inductive pyval :=
| PStr (s : string)
| PList (items : list pyval).

Definition is_PStr (v : pyval) : bool :=
  match v with PStr _ => true | PList _ => false end.

(** A tokenized sentence: a list of word strings. *)
Definition is_sentence (v : pyval) : bool :=
  match v with PList ws => forallb is_PStr ws | PStr _ => false end.

(** What [for x in v] walks over: the items of a list, the one-character
    strings of a string. *)
Definition py_iter_items (v : pyval) : list pyval :=
  match v with
  | PList l => l
  | PStr s => map (fun c => PStr (String c EmptyString)) (list_ascii_of_string s)
  end.

Definition pyval_of_sentence (s : sentence) : pyval := PList (map PStr s).

(** The corpus argument of a gensim call: a literal value or one of the
    iterator objects, whose items are the [list[str]] built by
    [line.split()] (see [ms_next] and [mt_next]). *)
Inductive corpus_arg :=
| Arg_value (v : pyval)
| Arg_MySentences (o : MySentences)
| Arg_MyText (o : MyText).

Definition is_corpus_arg (a : corpus_arg) : bool :=
  match a with
  | Arg_value v => match v with PList ss => forallb is_sentence ss | PStr _ => false end
  | Arg_MySentences _ => true
  | Arg_MyText _ => true
  end.

Definition cell3_sentences : pyval := PList (map pyval_of_sentence toy_sentences).

(** Cell 29:
<<
    more_sentences = ['Advanced', 'users', 'can', 'load', 'a', 'model', 'and', 'continue',
                      'training', 'it', 'with', 'more', 'sentences']
    model.train(more_sentences)
>> *)
Definition more_sentences : pyval :=
  PList (map PStr ["Advanced"; "users"; "can"; "load"; "a"; "model"; "and"; "continue";
                   "training"; "it"; "with"; "more"; "sentences"]).

(** Every call of the notebook that passes a corpus to gensim:
    (cell, call, corpus). *)
Definition notebook_corpus_calls : list (nat * string * corpus_arg) :=
  [ (3, "Word2Vec", Arg_value cell3_sentences);
    (8, "Word2Vec", Arg_MySentences (mkMySentences "./data/"));
    (10, "build_vocab", Arg_MySentences (mkMySentences "./data/"));
    (10, "train", Arg_MySentences (mkMySentences "./data/"));
    (15, "Word2Vec", Arg_MyText mkMyText);
    (16, "Word2Vec", Arg_MyText mkMyText);
    (18, "Word2Vec", Arg_MyText mkMyText);
    (29, "train", Arg_value more_sentences) ].

(* ------------------------------------------------------------------ *)
(** ** Order of the gensim calls *)

Inductive call_kind := Construct | BuildVocab | Train | Query | Inspect | Save | Load.

(** The gensim calls of the notebook, top to bottom: (cell, call, kind). *)
Definition notebook_calls : list (nat * string * call_kind) :=
  [ (3, "Word2Vec(sentences, min_count=1)", Construct);
    (8, "Word2Vec(sentences, min_count=1)", Construct);
    (8, "print(model)", Inspect);
    (8, "model.vocab", Inspect);
    (10, "Word2Vec(min_count=1)", Construct);
    (10, "new_model.build_vocab", BuildVocab);
    (10, "new_model.train", Train);
    (10, "print(new_model)", Inspect);
    (10, "model.vocab", Inspect);
    (15, "Word2Vec(sentences, min_count=10)", Construct);
    (16, "Word2Vec(sentences, size=200)", Construct);
    (18, "Word2Vec(sentences, workers=4)", Construct);
    (23, "model.accuracy", Query);
    (26, "model.save", Save);
    (26, "Word2Vec.load", Load);
    (29, "Word2Vec.load", Load);
    (29, "model.train", Train);
    (31, "model.most_similar", Query);
    (32, "model.doesnt_match", Query);
    (33, "model.similarity", Query);
    (33, "model.similarity", Query);
    (35, "model['tree']", Query) ].

Definition kind_of (c : nat * string * call_kind) : call_kind := snd c.

Definition is_query (k : call_kind) : bool := match k with Query => true | _ => false end.
Definition is_persist (k : call_kind) : bool :=
  match k with Save | Load => true | _ => false end.
Definition is_construct (k : call_kind) : bool :=
  match k with Construct => true | _ => false end.

(** Some call of kind [later] comes after some call of kind [earlier]. *)
Fixpoint occurs_after (earlier later : call_kind -> bool) (seen : bool)
  (l : list (nat * string * call_kind)) : bool :=
  match l with
  | [] => false
  | c :: l' => (seen && later (kind_of c))
               || occurs_after earlier later (seen || earlier (kind_of c)) l'
  end.

(** Some call of kind [p] comes before every construction. *)
Fixpoint before_first_construct (p : call_kind -> bool)
  (l : list (nat * string * call_kind)) : bool :=
  match l with
  | [] => false
  | c :: l' => if is_construct (kind_of c) then false
               else p (kind_of c) || before_first_construct p l'
  end.

Inductive phase := PBuild | PQuery | PPersist.

Definition phase_of (k : call_kind) : option phase :=
  match k with
  | Construct | BuildVocab | Train => Some PBuild
  | Query => Some PQuery
  | Save | Load => Some PPersist
  | Inspect => None
  end.

Definition phase_eqb (a b : phase) : bool :=
  match a, b with
  | PBuild, PBuild | PQuery, PQuery | PPersist, PPersist => true
  | _, _ => false
  end.

(** Drop repeated neighbours. *)
Fixpoint collapse (l : list phase) : list phase :=
  match l with
  | a :: ((b :: _) as l') => if phase_eqb a b then collapse l' else a :: collapse l'
  | _ => l
  end.

Definition phases (l : list (nat * string * call_kind)) : list phase :=
  collapse (omap (fun c => phase_of (kind_of c)) l).


(* ------------------------------------------------------------------ *)
(** ** What a complete iteration of [MySentences] collects *)

(** Yield [ss] in front of whatever the rest of the iteration gives. *)
Definition prepend (ss : list sentence) (r : result (list sentence)) : result (list sentence) :=
  fold_right cons_result r ss.

(** The sentences of the files [fnames] of directory [d], file by file;
    the first file that cannot be opened ends the iteration with its error. *)
Fixpoint ms_collect (f : fs) (d : string) (fnames : list string) : result (list sentence) :=
  match fnames with
  | [] => Ok []
  | fname :: rest =>
      match open_read f (path_join d fname) with
      | Err e => Err e
      | Ok c => prepend (map py_split (file_lines c)) (ms_collect f d rest)
      end
  end.

Definition ms_expected (f : fs) (d : string) : result (list sentence) :=
  match os_listdir f d with
  | Err e => Err e
  | Ok fnames => ms_collect f d fnames
  end.

Definition mt_expected (f : fs) (lee_train_file : string) : result (list sentence) :=
  match open_read f lee_train_file with
  | Err e => Err e
  | Ok c => Ok (map (fun line => py_split (py_lower line)) (file_lines c))
  end.

(** A well-formed token: nonempty, without any whitespace character. *)
Definition token_ok (t : string) : Prop :=
  t <> "" /\ Forall (fun c => py_isspace c = false) (list_ascii_of_string t).

(** An empty or whitespace-only line. *)
Definition blank (line : string) : Prop :=
  Forall (fun c => py_isspace c = true) (list_ascii_of_string line).

(** What the [with] block leaves in the file: each token followed by a
    newline. *)
Definition tokens_text (toks : list string) : string :=
  fold_right (fun line acc => String.append (String.append line NL) acc) "" toks.

(** [list(MySentences('./data/'))] as printed by cell 7. *)
Definition cell7_output : list sentence := [["first"]; ["sentence"]; ["second"]; ["sentence"]].

(* ------------------------------------------------------------------ *)
(** ** Concrete file systems *)

(** A working directory with nothing in it. *)
Definition empty_cwd : fs := <["." := Dir []]> ∅.

Definition lee_path : string := "lee_background.cor".

(** A training file whose only line has capitals. *)
Definition lee_demo_fs : fs :=
  <[lee_path := File (String.append "Hello World" NL)]> (<["." := Dir [lee_path]]> ∅).

Definition corpus_a : string := String.append "x  y" (String.append NL (String.append "  " NL)).
Definition corpus_out : list sentence := [["x"; "y"]; []; ["last"; "line"]].

(** A directory [corpus] with a file holding a blank line and one
    without a final newline. *)
Definition corpus_fs : fs :=
  <["corpus/b.txt" := File "last line"]>
  (<["corpus/a.txt" := File corpus_a]>
  (<["corpus" := Dir ["a.txt"; "b.txt"]]> (<["." := Dir ["corpus"]]> ∅))).

(** The file system left by the toy-data cell run in an empty directory. *)
Definition toy_data_fs : fs :=
  match cell_toy_data empty_cwd toy_sentences with Ok f => f | Err _ => empty_cwd end.

(** A directory [corpus] whose listing has a readable file followed by a
    subdirectory. *)
Definition mixed_fs : fs :=
  <["corpus/sub" := Dir []]>
  (<["corpus/a.txt" := File corpus_a]>
  (<["corpus" := Dir ["a.txt"; "sub"]]> (<["." := Dir ["corpus"]]> ∅))).

(** The same two-line file with DOS line endings, and with Unix ones. *)
Definition CRLF : string := String CR NL.

Definition dos_fs : fs :=
  <["d/a.txt" := File (String.append "a B" (String.append CRLF (String.append "c" CRLF)))]>
  (<["d" := Dir ["a.txt"]]> (<["." := Dir ["d"]]> ∅)).

Definition unix_fs : fs :=
  <["d/a.txt" := File (String.append "a B" (String.append NL (String.append "c" NL)))]>
  (<["d" := Dir ["a.txt"]]> (<["." := Dir ["d"]]> ∅)).

(* ------------------------------------------------------------------ *)
(** ** Shapes of text *)

Definition is_upper (c : ascii) : bool :=
  let n := nat_of_ascii c in Nat.leb 65 n && Nat.leb n 90.

(** No ASCII capital letter in [t]. *)
Definition lowercase (t : string) : Prop :=
  Forall (fun c => is_upper c = false) (list_ascii_of_string t).

Definition no_char (x : ascii) (t : string) : Prop :=
  ~ In x (list_ascii_of_string t).

(** A line as iteration over a text file gives it: nonempty, with a
    newline at most as its last character. *)
Definition line_ok (l : string) : Prop :=
  l <> "" /\ exists body, no_char LF body /\ (l = body \/ l = String.append body NL).

Definition ends_NL (l : string) : Prop := exists body, l = String.append body NL.

(* ------------------------------------------------------------------ *)
(** ** Generic facts on [drains] *)

Section Drains.
Context {G : Type} (next : G -> step_out G).

Lemma drains_det g r1 r2 : drains next g r1 -> drains next g r2 -> r1 = r2.
Proof.
  intros H1. revert r2.
  induction H1 as [g Hs|g e He|g s g' r Hy Hd IH]; intros r2 H2;
    inversion H2 as [g0 Hs0|g0 e0 He0|g0 s0 g0' r0 Hy0 Hd0]; subst; try congruence.
  rewrite Hy in Hy0. injection Hy0 as <- <-. now rewrite (IH _ Hd0).
Qed.

Lemma drains_same_next g g' r :
  next g = next g' -> drains next g' r -> drains next g r.
Proof.
  intros Heq H. destruct H as [g0 Hs|g0 e He|g0 s g1 r Hy Hd].
  - apply drains_stop. now rewrite Heq.
  - apply drains_raise. now rewrite Heq.
  - eapply drains_yield; [rewrite Heq; exact Hy|exact Hd].
Qed.

Lemma drains_yield_ok g s g' l :
  next g = Yield s g' -> drains next g' (Ok l) -> drains next g (Ok (s :: l)).
Proof. intros Hy Hd. exact (drains_yield next g s g' (Ok l) Hy Hd). Qed.

Lemma drain_fuel_sound n g r : drain_fuel next n g = Some r -> drains next g r.
Proof.
  revert g r. induction n as [|n IH]; intros g r H; [discriminate|].
  simpl in H. destruct (next g) as [s g'| |e] eqn:Hn.
  - destruct (drain_fuel next n g') as [r'|] eqn:Hr; [|discriminate].
    injection H as <-. eapply drains_yield; [exact Hn|]. now apply IH.
  - injection H as <-. now apply drains_stop.
  - injection H as <-. now apply drains_raise.
Qed.

(** Every sentence of a completed iteration was yielded by some [next]. *)
Lemma drains_yielded (P : sentence -> Prop) g out :
  (forall g0 s g1, next g0 = Yield s g1 -> P s) ->
  drains next g (Ok out) -> Forall P out.
Proof.
  intros HP H. remember (Ok out) as r eqn:Er. revert out Er.
  induction H as [g Hs|g e He|g s g' r Hy Hd IH]; intros out Er.
  - injection Er as <-. constructor.
  - discriminate.
  - destruct r as [l|e]; simpl in Er; [|discriminate].
    injection Er as <-. constructor; [eapply HP; eauto|]. now apply IH.
Qed.

Lemma yields_same_next g1 g2 ss g' :
  next g1 = next g2 -> yields next g2 ss g' ->
  exists g'', yields next g1 ss g'' /\ next g'' = next g'.
Proof.
  intros E Y. inversion Y as [g|g s g0 ss0 g'' Hn Y']; subst.
  - exists g1. split; [constructor|exact E].
  - exists g'. split; [|reflexivity]. eapply yields_cons; [rewrite E; exact Hn|exact Y'].
Qed.

Lemma yields_app g ss1 g1 ss2 g2 :
  yields next g ss1 g1 -> yields next g1 ss2 g2 -> yields next g (ss1 ++ ss2) g2.
Proof.
  induction 1 as [g|g s g' ss g'' Hn _ IH]; intros Y2; [exact Y2|].
  simpl. eapply yields_cons; [exact Hn|exact (IH Y2)].
Qed.

(** Every sentence yielded so far was yielded by some [next]. *)
Lemma yields_all (P : sentence -> Prop) g ss g' :
  (forall g0 s g1, next g0 = Yield s g1 -> P s) ->
  yields next g ss g' -> Forall P ss.
Proof.
  intros HP. induction 1 as [g|g s g' ss g'' Hn _ IH]; constructor; [|exact IH].
  exact (HP _ _ _ Hn).
Qed.




End Drains.

Lemma prepend_cons s ss r : prepend (s :: ss) r = cons_result s (prepend ss r).
Proof. reflexivity. Qed.

Lemma prepend_ok ss l : prepend ss (Ok l) = Ok (ss ++ l)%list.
Proof. induction ss as [|s ss IH]; simpl; [reflexivity|]. now rewrite IH. Qed.

Lemma prepend_err ss e : prepend ss (Err e) = Err e.
Proof. induction ss as [|s ss IH]; simpl; [reflexivity|]. now rewrite IH. Qed.

(** A suspended [MySentences] generator delivers the remaining lines of
    the current file, then the sentences of the remaining files. *)
Lemma ms_lines_drains f d fnames lines :
  drains (ms_next f) (MS_lines d fnames lines)
    (prepend (map py_split lines) (ms_collect f d fnames)).
Proof.
  revert lines. induction fnames as [|fname rest IHf]; intros lines;
    induction lines as [|line lines IHl].
  - apply drains_stop. reflexivity.
  - eapply drains_yield; [reflexivity|exact IHl].
  - simpl. destruct (open_read f (path_join d fname)) as [c|e] eqn:Ho.
    + destruct (file_lines c) as [|line ls] eqn:Hl.
      * simpl. apply (drains_same_next _ _ (MS_lines d rest [])); [|exact (IHf [])].
        simpl. now rewrite Ho, Hl.
      * eapply drains_yield; [simpl; rewrite Ho, Hl; reflexivity|]. exact (IHf ls).
    + apply drains_raise. simpl. now rewrite Ho.
  - eapply drains_yield; [reflexivity|exact IHl].
Qed.

Lemma ms_start_drains f d : drains (ms_next f) (MS_start d) (ms_expected f d).
Proof.
  unfold ms_expected. destruct (os_listdir f d) as [fnames|e] eqn:Hl.
  - apply (drains_same_next _ _ (MS_lines d fnames [])); [simpl; now rewrite Hl|].
    exact (ms_lines_drains f d fnames []).
  - apply drains_raise. simpl. now rewrite Hl.
Qed.

Lemma ms_drains_iff f o r :
  list_MySentences f o r <-> r = ms_expected f (dirname o).
Proof.
  unfold list_MySentences, MySentences_iter. split.
  - intros H. eapply drains_det; [exact H|apply ms_start_drains].
  - intros ->. apply ms_start_drains.
Qed.

(** When every listed file opens, the iteration yields the split lines of
    the files, concatenated in listing order. *)
Lemma ms_collect_ok f d fnames contents :
  Forall2 (fun fname c => open_read f (path_join d fname) = Ok c) fnames contents ->
  ms_collect f d fnames = Ok (concat (map (fun c => map py_split (file_lines c)) contents)).
Proof.
  induction 1 as [|fname c fnames contents Ho _ IH]; [reflexivity|].
  simpl. rewrite Ho, IH. apply prepend_ok.
Qed.

(* ------------------------------------------------------------------ *)
(** ** What a complete iteration of [MyText] collects *)

Lemma mt_lines_drains f p lines :
  drains (mt_next f p) (MT_lines lines)
    (Ok (map (fun line => py_split (py_lower line)) lines)).
Proof.
  induction lines as [|line lines IH].
  - apply drains_stop. reflexivity.
  - eapply drains_yield_ok; [reflexivity|exact IH].
Qed.

Lemma mt_drains_iff f p o r : list_MyText f p o r <-> r = mt_expected f p.
Proof.
  unfold list_MyText, MyText_iter.
  assert (Hs : drains (mt_next f p) MT_start (mt_expected f p)).
  { unfold mt_expected. destruct (open_read f p) as [c|e] eqn:Ho.
    - destruct (file_lines c) as [|line lines] eqn:Hl.
      + apply drains_stop. simpl. now rewrite Ho, Hl.
      + eapply drains_yield_ok; [simpl; rewrite Ho, Hl; reflexivity|].
        apply mt_lines_drains.
    - apply drains_raise. simpl. now rewrite Ho. }
  split; [intros H; eapply drains_det; eauto|intros ->; exact Hs].
Qed.

(* ------------------------------------------------------------------ *)
(** ** Partial iterations *)

Lemma firstn_S_nth {A} (l : list A) k x :
  nth_error l k = Some x -> firstn (S k) l = (firstn k l ++ [x])%list.
Proof.
  revert k. induction l as [|y l IH]; intros [|k] H; try discriminate.
  - injection H as <-. reflexivity.
  - simpl in H |- *. rewrite (IH k H). reflexivity.
Qed.

(** Within a file, the generator of [MySentences] yields the split
    lines one by one. *)
Lemma ms_lines_prefix f d fnames lines k line :
  nth_error lines k = Some line ->
  exists g', yields (ms_next f) (MS_lines d fnames lines)
               (map py_split (firstn k lines) ++ [py_split line])%list g'.
Proof.
  revert k. induction lines as [|l lines IH]; intros [|k] H; try discriminate.
  - injection H as <-. eexists. eapply yields_cons; [reflexivity|constructor].
  - destruct (IH k H) as [g' Y]. exists g'. simpl. eapply yields_cons; [reflexivity|exact Y].
Qed.

(** Files that open are read through, line by line, before the next
    entry of the listing is looked at. *)
Lemma ms_yields_prefix f d pre contents rest lines :
  Forall2 (fun fname c => open_read f (path_join d fname) = Ok c) pre contents ->
  exists g', yields (ms_next f) (MS_lines d (pre ++ rest)%list lines)
               (map py_split lines ++ concat (map (fun c => map py_split (file_lines c)) contents))%list g'
             /\ ms_next f g' = ms_next f (MS_lines d rest []).
Proof.
  intros Hpre. revert lines.
  induction Hpre as [|fname c pre contents Ho _ IH]; intros lines;
    induction lines as [|line lines IHl].
  - exists (MS_lines d rest []). split; [constructor|reflexivity].
  - destruct IHl as (g' & Y & R). exists g'. split; [|exact R].
    eapply yields_cons; [reflexivity|exact Y].
  - cbn [map app concat]. destruct (file_lines c) as [|line0 ls] eqn:Hl.
    + destruct (IH []) as (g' & Y & R).
      assert (E : ms_next f (MS_lines d (fname :: pre ++ rest)%list []) =
                  ms_next f (MS_lines d (pre ++ rest)%list [])) by (simpl; now rewrite Ho, Hl).
      destruct (yields_same_next _ _ _ _ _ E Y) as (g'' & Y' & R').
      exists g''. split; [exact Y'|congruence].
    + destruct (IH ls) as (g' & Y & R). exists g'. split; [|exact R].
      simpl. eapply yields_cons; [simpl; rewrite Ho, Hl; reflexivity|]. exact Y.
  - destruct IHl as (g' & Y & R). exists g'. split; [|exact R].
    eapply yields_cons; [reflexivity|exact Y].
Qed.

Lemma mt_lines_prefix f p lines k line :
  nth_error lines k = Some line ->
  exists g', yields (mt_next f p) (MT_lines lines)
               (map (fun l => py_split (py_lower l)) (firstn k lines) ++
                [py_split (py_lower line)])%list g'.
Proof.
  revert k. induction lines as [|l lines IH]; intros [|k] H; try discriminate.
  - injection H as <-. eexists. eapply yields_cons; [reflexivity|constructor].
  - destruct (IH k H) as [g' Y]. exists g'. simpl. eapply yields_cons; [reflexivity|exact Y].
Qed.





(* ------------------------------------------------------------------ *)
(** ** Text lemmas *)

(* stdpp makes [String.append] opaque to [simpl]; these unfold it. *)
Lemma str_app_nil (b : string) : String.append "" b = b.
Proof. reflexivity. Qed.

Lemma str_app_cons x (a b : string) : String.append (String x a) b = String x (String.append a b).
Proof. reflexivity. Qed.

Lemma str_app_assoc (a b c : string) :
  String.append a (String.append b c) = String.append (String.append a b) c.
Proof.
  induction a as [|x a IH]; [reflexivity|]. rewrite !str_app_cons. now rewrite IH.
Qed.

Lemma str_app_empty (a : string) : String.append a "" = a.
Proof. induction a as [|x a IH]; [reflexivity|]. rewrite str_app_cons. now rewrite IH. Qed.

Lemma list_ascii_app (a b : string) :
  list_ascii_of_string (String.append a b) = (list_ascii_of_string a ++ list_ascii_of_string b)%list.
Proof. induction a as [|x a IH]; [reflexivity|]. rewrite str_app_cons. simpl. now rewrite IH. Qed.

(** The lines of a file put back together give the (newline-translated)
    file: iteration neither drops nor adds text. *)
Lemma lines_go_concat s cur :
  String.concat "" (lines_go s cur) = String.append cur s.
Proof.
  revert cur. induction s as [|c s IH]; intros cur; simpl.
  - destruct (String.eqb_spec cur ""); subst; simpl; [reflexivity|].
    symmetry. apply str_app_empty.
  - destruct (Ascii.eqb c LF) eqn:Hc.
    + apply Ascii.eqb_eq in Hc; subst c.
      destruct (lines_go s "") as [|l ls] eqn:Hl.
      * simpl. specialize (IH ""). rewrite Hl in IH. simpl in IH.
        rewrite str_app_nil in IH. subst s. reflexivity.
      * change (String.append (String.append cur (String LF ""))
                  (String.concat "" (l :: ls)) = String.append cur (String LF s)).
        rewrite <- Hl, IH, <- str_app_assoc. reflexivity.
    + rewrite IH, <- str_app_assoc. reflexivity.
Qed.

Lemma file_lines_concat c : String.concat "" (file_lines c) = universal_newlines c.
Proof. apply lines_go_concat. Qed.

Lemma split_go_tokens s cur :
  Forall (fun c => py_isspace c = false) (list_ascii_of_string cur) ->
  Forall token_ok (split_go s cur).
Proof.
  revert cur. induction s as [|c s IH]; intros cur Hcur; simpl.
  - destruct (String.eqb_spec cur ""); [constructor|].
    constructor; [split; assumption|constructor].
  - destruct (py_isspace c) eqn:Hc.
    + destruct (String.eqb_spec cur "").
      * apply IH. constructor.
      * constructor; [split; assumption|]. apply IH. constructor.
    + apply IH. rewrite list_ascii_app. apply Forall_app. split; [exact Hcur|].
      constructor; [exact Hc|constructor].
Qed.

Lemma py_split_tokens s : Forall token_ok (py_split s).
Proof. apply split_go_tokens. constructor. Qed.

Lemma py_split_blank s : blank s -> py_split s = [].
Proof.
  unfold blank, py_split. induction s as [|c s IH]; intros H; [reflexivity|].
  simpl in H. inversion H as [|? ? Hc Hs]; subst. simpl. rewrite Hc. exact (IH Hs).
Qed.

Lemma ascii_lower_space c : py_isspace c = true -> ascii_lower c = c.
Proof.
  unfold py_isspace, ascii_lower. intros H.
  destruct (Nat.leb 65 (nat_of_ascii c) && Nat.leb (nat_of_ascii c) 90) eqn:E; [|reflexivity].
  exfalso. apply andb_true_iff in E as [E1 E2]. apply Nat.leb_le in E1.
  repeat (apply orb_true_iff in H as [H|H]); try (apply andb_true_iff in H as [H H']);
    try apply Nat.eqb_eq in H; try apply Nat.leb_le in H; try apply Nat.leb_le in H'; lia.
Qed.

Lemma py_lower_blank s : blank s -> blank (py_lower s).
Proof.
  unfold blank. induction s as [|c s IH]; intros H; simpl; [constructor|].
  inversion H as [|? ? Hc Hs]; subst. constructor; [now rewrite ascii_lower_space|].
  exact (IH Hs).
Qed.


(* ------------------------------------------------------------------ *)
(** ** What the generators yield *)

Lemma ms_advance_yield f d fnames s g :
  ms_advance f d fnames = Yield s g -> exists line, s = py_split line.
Proof.
  induction fnames as [|fname rest IH]; simpl; [discriminate|].
  destruct (open_read f (path_join d fname)) as [c|e]; [|discriminate].
  destruct (file_lines c) as [|line lines]; [exact IH|].
  intros H. injection H as <- _. eauto.
Qed.

Lemma ms_next_yield f g s g' : ms_next f g = Yield s g' -> exists line, s = py_split line.
Proof.
  destruct g as [d|d rest [|line lines]]; simpl.
  - destruct (os_listdir f d); [apply ms_advance_yield|discriminate].
  - apply ms_advance_yield.
  - intros H. injection H as <- _. eauto.
Qed.

Lemma mt_next_yield f p g s g' :
  mt_next f p g = Yield s g' -> exists line, s = py_split (py_lower line).
Proof.
  destruct g as [|[|line lines]]; simpl.
  - destruct (open_read f p) as [c|e]; [|discriminate].
    destruct (file_lines c) as [|line lines]; [discriminate|].
    intros H. injection H as <- _. eauto.
  - discriminate.
  - intros H. injection H as <- _. eauto.
Qed.

(* ------------------------------------------------------------------ *)
(** ** Claims on the iterator classes *)

(** C1: for a directory [d] whose listing is [fnames] and whose files
    open with contents [contents], [list(MySentences(d))] is exactly the
    list of [line.split()] for every line of every file, files in listing
    order and lines in file order; nothing else is yielded. *)
Theorem MySentences_yields_split_lines (f : fs) (d : string)
  (fnames contents : list string)
  (Hls : os_listdir f d = Ok fnames)
  (Hopen : Forall2 (fun fname c => open_read f (path_join d fname) = Ok c) fnames contents) :
  forall r, list_MySentences f (mkMySentences d) r <->
    r = Ok (concat (map (fun c => map py_split (file_lines c)) contents)).
Proof.
  intros r. rewrite ms_drains_iff. unfold ms_expected. simpl.
  rewrite Hls, (ms_collect_ok _ _ _ _ Hopen). reflexivity.
Qed.

(** C2 (as amended): [MyText] yields, for every line of the training
    file, that line lowercased and then split on whitespace. *)
Theorem MyText_yields_lowered_split_lines (f : fs) (lee_train_file c : string) (o : MyText)
  (Hopen : open_read f lee_train_file = Ok c) :
  forall r, list_MyText f lee_train_file o r <->
    r = Ok (map (fun line => py_split (py_lower line)) (file_lines c)).
Proof.
  intros r. rewrite mt_drains_iff. unfold mt_expected. now rewrite Hopen.
Qed.

(** C2 fails as stated: a training line ["Hello World"] is yielded as
    [['hello', 'world']], not as its plain split [['Hello', 'World']]. *)
Lemma MyText_plain_split_counterexample :
  ~ (forall (f : fs) (p c : string) (o : MyText),
       open_read f p = Ok c -> list_MyText f p o (Ok (map py_split (file_lines c)))).
Proof.
  intros H.
  specialize (H lee_demo_fs lee_path (String.append "Hello World" NL) mkMyText eq_refl).
  apply mt_drains_iff in H. vm_compute in H. discriminate H.
Qed.

(** C5: with no error handling, iterating [MySentences(d)] for a
    directory [d] that does not exist raises [FileNotFoundError] at the
    first [next], and so does [MyText] when the training file is missing;
    the error reaches [list(..)], which never returns a list. *)
Theorem iterators_raise_when_missing (f : fs) (d lee_train_file : string) (o : MyText)
  (Hd : fs_get f d = None) (Hp : fs_get f lee_train_file = None) :
  ms_next f (MySentences_iter (mkMySentences d)) = Raise FileNotFoundError /\
  (forall r, list_MySentences f (mkMySentences d) r <-> r = Err FileNotFoundError) /\
  mt_next f lee_train_file (MyText_iter o) = Raise FileNotFoundError /\
  (forall r, list_MyText f lee_train_file o r <-> r = Err FileNotFoundError).
Proof.
  assert (Hls : os_listdir f d = Err FileNotFoundError) by (unfold os_listdir; now rewrite Hd).
  assert (Ho : open_read f lee_train_file = Err FileNotFoundError)
    by (unfold open_read; now rewrite Hp).
  split; [simpl; now rewrite Hls|]. split.
  { intros r. rewrite ms_drains_iff. unfold ms_expected. simpl. now rewrite Hls. }
  split; [simpl; now rewrite Ho|].
  intros r. rewrite mt_drains_iff. unfold mt_expected. now rewrite Ho.
Qed.

(** C9: every token of every sentence [MySentences] or [MyText] yields
    is nonempty and free of whitespace (also when the iteration later
    raises), and an empty or whitespace-only line is yielded, in its
    place, as the empty sentence: after the sentences of the files before
    it in the listing and of the lines before it in its file. *)
Theorem iterator_tokens_well_formed :
  (forall (f : fs) (o : MySentences) (ss : list sentence) (g' : ms_gen),
     yields (ms_next f) (MySentences_iter o) ss g' -> Forall (Forall token_ok) ss) /\
  (forall (f : fs) (p : string) (o : MyText) (ss : list sentence) (g' : mt_gen),
     yields (mt_next f p) (MyText_iter o) ss g' -> Forall (Forall token_ok) ss) /\
  (forall (f : fs) (o : MySentences) (pre : list string) (n : string) (post : list string)
          (contents : list string) (c : string) (k : nat) (line : string),
     os_listdir f (dirname o) = Ok (pre ++ n :: post)%list ->
     Forall2 (fun fname c => open_read f (path_join (dirname o) fname) = Ok c) pre contents ->
     open_read f (path_join (dirname o) n) = Ok c ->
     nth_error (file_lines c) k = Some line -> blank line ->
     exists g', yields (ms_next f) (MySentences_iter o)
                  (concat (map (fun c => map py_split (file_lines c)) contents) ++
                   map py_split (firstn k (file_lines c)) ++ [[]])%list g') /\
  (forall (f : fs) (p c : string) (o : MyText) (k : nat) (line : string),
     open_read f p = Ok c -> nth_error (file_lines c) k = Some line -> blank line ->
     exists g', yields (mt_next f p) (MyText_iter o)
                  (map (fun l => py_split (py_lower l)) (firstn k (file_lines c)) ++ [[]])%list g').
Proof.
  split; [|split; [|split]].
  - intros f o ss g' Y. eapply yields_all; [|exact Y].
    intros g0 s g1 Hy. destruct (ms_next_yield _ _ _ _ Hy) as [line ->].
    apply py_split_tokens.
  - intros f p o ss g' Y. eapply yields_all; [|exact Y].
    intros g0 s g1 Hy. destruct (mt_next_yield _ _ _ _ _ Hy) as [line ->].
    apply py_split_tokens.
  - intros f o pre n post contents c k line Hls Hpre Hc Hk Hb.
    destruct (ms_yields_prefix f (dirname o) pre contents (n :: post) [] Hpre) as (g1 & Y1 & R1).
    assert (E0 : ms_next f (MySentences_iter o) =
                 ms_next f (MS_lines (dirname o) (pre ++ n :: post)%list []))
      by (unfold MySentences_iter; simpl; now rewrite Hls).
    destruct (yields_same_next _ _ _ _ _ E0 Y1) as (g2 & Y2 & R2).
    destruct (file_lines c) as [|line0 ls] eqn:Hl; [destruct k; discriminate|].
    assert (E1 : ms_next f g2 = ms_next f (MS_lines (dirname o) post (line0 :: ls)))
      by (rewrite R2, R1; simpl; now rewrite Hc, Hl).
    destruct (ms_lines_prefix f (dirname o) post (line0 :: ls) k line Hk) as [g3 Y3].
    destruct (yields_same_next _ _ _ _ _ E1 Y3) as (g4 & Y4 & _).
    rewrite (py_split_blank _ Hb) in Y4.
    exists g4. exact (yields_app _ _ _ _ _ _ Y2 Y4).
  - intros f p c o k line Hc Hk Hb.
    destruct (file_lines c) as [|line0 ls] eqn:Hl; [destruct k; discriminate|].
    assert (E : mt_next f p (MyText_iter o) = mt_next f p (MT_lines (line0 :: ls)))
      by (unfold MyText_iter; simpl; now rewrite Hc, Hl).
    destruct (mt_lines_prefix f p (line0 :: ls) k line Hk) as [g1 Y1].
    destruct (yields_same_next _ _ _ _ _ E Y1) as (g2 & Y2 & _).
    rewrite (py_split_blank _ (py_lower_blank _ Hb)) in Y2.
    exists g2. exact Y2.
Qed.


(* ------------------------------------------------------------------ *)
(** ** Writing files *)

Lemma link_entry_spec f d t f1 :
  link_entry f d t = Ok f1 ->
  (exists ns, f1 !! d = Some (Dir ns)) /\ (forall k, k <> d -> f1 !! k = f !! k).
Proof.
  unfold link_entry. destruct (f !! d) as [[ns|c]|] eqn:Hd; try discriminate.
  intros H. injection H as <-. destruct (existsb (String.eqb t) ns).
  - split; [eauto|reflexivity].
  - split; [exists (ns ++ [t])%list; apply lookup_insert_eq|].
    intros k Hk. apply lookup_insert_ne. congruence.
Qed.

Lemma write_loop f p c toks :
  fold_left (fun f line => file_write f p (String.append line NL)) toks
    (<[norm_path p := File c]> f)
  = <[norm_path p := File (String.append c (tokens_text toks))]> f.
Proof.
  revert c. induction toks as [|tok toks IH]; intros c; simpl.
  - rewrite str_app_empty. reflexivity.
  - unfold file_write at 2, fs_get. rewrite lookup_insert_eq, insert_insert_eq, IH.
    rewrite !str_app_assoc. reflexivity.
Qed.

(** After the [with] block the file holds the tokens, one per line,
    and its directory lists it. *)
Lemma write_tokens_spec f p toks f' :
  write_tokens f p toks = Ok f' ->
  exists f1, link_entry f (fst (parent_of p)) (snd (parent_of p)) = Ok f1 /\
             f' = <[norm_path p := File (tokens_text toks)]> f1.
Proof.
  unfold write_tokens, open_write.
  destruct (fs_get f p) as [[ns|c]|]; try discriminate;
    destruct (parent_of p) as [d t]; simpl;
    destruct (link_entry f d t) as [f1|e]; try discriminate;
    intros H; injection H as <-; exists f1; split; try reflexivity;
    apply write_loop.
Qed.

(** When [sentences[i]] exists, one turn of the loop is the [with] block. *)
Lemma write_files_cons_ok f fname rest i s toks :
  nth_error s i = Some toks ->
  write_files f (fname :: rest) i s =
  match write_tokens f fname toks with
  | Ok g => write_files g rest (S i) s
  | Err e => (f, Err e)
  end.
Proof.
  intros H. simpl. unfold write_tokens, py_index. rewrite H.
  destruct (open_write f fname); reflexivity.
Qed.

Lemma cell_toy_data_two f s0 s1 rest :
  cell_toy_data f (s0 :: s1 :: rest) =
  (f0 <- make_data_dir f ;;
   g1 <- write_tokens f0 "./data/f1.txt" s0 ;;
   write_tokens g1 "./data/f2.txt" s1).
Proof.
  unfold cell_toy_data, cell_toy_data_run. destruct (make_data_dir f) as [f0|e]; [|reflexivity].
  unfold bind at 1. unfold filenames. rewrite (write_files_cons_ok _ _ _ _ _ s0) by reflexivity.
  destruct (write_tokens f0 "./data/f1.txt" s0) as [g1|e]; [|reflexivity].
  unfold bind at 1.
  rewrite (write_files_cons_ok _ _ _ _ _ s1) by reflexivity.
  destruct (write_tokens g1 "./data/f2.txt" s1) as [g2|e]; reflexivity.
Qed.

(* ------------------------------------------------------------------ *)
(** ** Claim on the toy-data cell *)

(** C8: after the toy-data cell runs on [sentences = [['first',
    'sentence'], ['second', 'sentence']]], [./data/] is a directory and
    [./data/f1.txt], [./data/f2.txt] hold the tokens of each sentence, one
    per newline-terminated line; when [./data/] then lists exactly
    [f1.txt] then [f2.txt], [list(MySentences('./data/'))] is
    [[['first'], ['sentence'], ['second'], ['sentence']]]: singleton
    sentences whose tokens, put together, are those of [sentences]. *)
Theorem toy_data_round_trip (f f' : fs)
  (Hcell : cell_toy_data f toy_sentences = Ok f') :
  (exists ns, fs_get f' "./data/" = Some (Dir ns)) /\
  fs_get f' "./data/f1.txt" = Some (File (String.append "first" (String.append NL (String.append "sentence" NL)))) /\
  fs_get f' "./data/f2.txt" = Some (File (String.append "second" (String.append NL (String.append "sentence" NL)))) /\
  Forall (fun s => length s = 1) cell7_output /\
  concat cell7_output = concat toy_sentences /\
  (os_listdir f' "./data/" = Ok ["f1.txt"; "f2.txt"] ->
   forall r, list_MySentences f' (mkMySentences "./data/") r <-> r = Ok cell7_output).
Proof.
  unfold toy_sentences in Hcell. rewrite cell_toy_data_two in Hcell.
  destruct (make_data_dir f) as [f0|e]; [|discriminate]. simpl in Hcell.
  destruct (write_tokens f0 "./data/f1.txt" ["first"; "sentence"]) as [f1|e] eqn:H1;
    [|discriminate]. simpl in Hcell.
  destruct (write_tokens f1 "./data/f2.txt" ["second"; "sentence"]) as [f2|e] eqn:H2;
    [|discriminate]. simpl in Hcell. injection Hcell as <-.
  apply write_tokens_spec in H1 as [f0b [L1 ->]].
  apply write_tokens_spec in H2 as [f1b [L2 ->]].
  change (norm_path "./data/f1.txt") with "./data/f1.txt" in *.
  change (norm_path "./data/f2.txt") with "./data/f2.txt" in *.
  simpl in L1, L2.
  apply link_entry_spec in L1 as [_ O1]. apply link_entry_spec in L2 as [[ns D2] O2].
  assert (G1 : fs_get (<["./data/f2.txt" := File (tokens_text ["second"; "sentence"])]> f1b)
                 "./data/f1.txt" = Some (File (tokens_text ["first"; "sentence"]))).
  { unfold fs_get. simpl. rewrite lookup_insert_ne by discriminate.
    rewrite O2 by discriminate. apply lookup_insert_eq. }
  assert (G2 : fs_get (<["./data/f2.txt" := File (tokens_text ["second"; "sentence"])]> f1b)
                 "./data/f2.txt" = Some (File (tokens_text ["second"; "sentence"]))).
  { unfold fs_get. simpl. apply lookup_insert_eq. }
  split; [|split; [exact G1|split; [exact G2|split; [repeat constructor|split; [reflexivity|]]]]].
  - exists ns. unfold fs_get. simpl. rewrite lookup_insert_ne by discriminate. exact D2.
  - intros Hls r. rewrite ms_drains_iff. unfold ms_expected. simpl dirname. rewrite Hls.
    rewrite (ms_collect_ok _ _ _ [tokens_text ["first"; "sentence"]; tokens_text ["second"; "sentence"]]).
    + reflexivity.
    + constructor.
      { unfold open_read. change (path_join "./data/" "f1.txt") with "./data/f1.txt".
        rewrite G1. reflexivity. }
      constructor; [|constructor].
      unfold open_read. change (path_join "./data/" "f2.txt") with "./data/f2.txt".
      rewrite G2. reflexivity.
Qed.

(* ------------------------------------------------------------------ *)
(** ** Claims on the notebook as a whole *)

(** C4 (the code departs from it): the corpus of [model.train] in cell 29
    is a flat list of words, not a list of token lists; it is the only
    such call, and gensim, iterating each of its items, sees the first
    "sentence" as the characters of ['Advanced']. *)
Theorem more_sentences_is_flat :
  is_corpus_arg (Arg_value more_sentences) = false /\
  filter (fun c => negb (is_corpus_arg (snd c))) notebook_corpus_calls
    = [(29, "train", Arg_value more_sentences)] /\
  hd_error (map py_iter_items (py_iter_items more_sentences))
    = Some (map PStr ["A"; "d"; "v"; "a"; "n"; "c"; "e"; "d"]).
Proof. split; [reflexivity|split; reflexivity]. Qed.

(** C6 fails as stated: a save/load call (cell 26) comes before query
    calls (cells 31 to 35). *)
Lemma save_load_before_query :
  ~ (occurs_after is_persist is_query false notebook_calls = false /\
     before_first_construct is_query notebook_calls = false).
Proof. intros [H _]. vm_compute in H. discriminate H. Qed.

(** C6 (as amended): top to bottom, the notebook's gensim calls go
    construct/train, query, save/load, train again, query; no query and
    no save/load call comes before the first construction. *)
Theorem notebook_call_phases :
  phases notebook_calls = [PBuild; PQuery; PPersist; PBuild; PQuery] /\
  before_first_construct is_query notebook_calls = false /\
  before_first_construct is_persist notebook_calls = false.
Proof. split; [reflexivity|split; reflexivity]. Qed.

(* ------------------------------------------------------------------ *)
(** ** The claims at concrete inputs *)

Lemma MySentences_yields_split_lines_witness :
  os_listdir corpus_fs "corpus" = Ok ["a.txt"; "b.txt"] /\
  list_MySentences corpus_fs (mkMySentences "corpus") (Ok corpus_out).
Proof.
  split; [reflexivity|].
  apply (proj2 (MySentences_yields_split_lines corpus_fs "corpus" ["a.txt"; "b.txt"]
                  [corpus_a; "last line"] eq_refl
                  ltac:(repeat constructor) (Ok corpus_out))).
  vm_compute. reflexivity.
Defined.

Lemma MyText_yields_lowered_split_lines_witness :
  open_read lee_demo_fs lee_path = Ok (String.append "Hello World" NL) /\
  list_MyText lee_demo_fs lee_path mkMyText (Ok [["hello"; "world"]]).
Proof.
  split; [reflexivity|].
  apply (proj2 (MyText_yields_lowered_split_lines lee_demo_fs lee_path
                  (String.append "Hello World" NL) mkMyText eq_refl (Ok [["hello"; "world"]]))).
  vm_compute. reflexivity.
Defined.

Lemma iterators_raise_when_missing_witness :
  fs_get empty_cwd "./data/" = None /\ fs_get empty_cwd lee_path = None /\
  list_MySentences empty_cwd (mkMySentences "./data/") (Err FileNotFoundError) /\
  list_MyText empty_cwd lee_path mkMyText (Err FileNotFoundError).
Proof.
  destruct (iterators_raise_when_missing empty_cwd "./data/" lee_path mkMyText
              eq_refl eq_refl) as [_ [Hm [_ Ht]]].
  split; [reflexivity|split; [reflexivity|split]].
  - now apply Hm.
  - now apply Ht.
Defined.

Lemma toy_data_round_trip_witness :
  cell_toy_data empty_cwd toy_sentences = Ok toy_data_fs /\
  os_listdir toy_data_fs "./data/" = Ok ["f1.txt"; "f2.txt"] /\
  list_MySentences toy_data_fs (mkMySentences "./data/") (Ok cell7_output).
Proof.
  assert (Hc : cell_toy_data empty_cwd toy_sentences = Ok toy_data_fs) by (vm_compute; reflexivity).
  assert (Hl : os_listdir toy_data_fs "./data/" = Ok ["f1.txt"; "f2.txt"]) by (vm_compute; reflexivity).
  split; [exact Hc|split; [exact Hl|]].
  destruct (toy_data_round_trip empty_cwd toy_data_fs Hc) as [_ [_ [_ [_ [_ H]]]]].
  now apply (H Hl).
Defined.

Lemma iterator_tokens_well_formed_witness :
  (exists g', yields (ms_next mixed_fs) (MySentences_iter (mkMySentences "corpus"))
                [["x"; "y"]; []] g') /\
  Forall (Forall token_ok) [["x"; "y"]; []] /\
  Forall (Forall token_ok) [["hello"; "world"]].
Proof.
  destruct iterator_tokens_well_formed as (A & B & C & _).
  assert (Hls : os_listdir mixed_fs (dirname (mkMySentences "corpus")) = Ok ([] ++ "a.txt" :: ["sub"])%list)
    by (vm_compute; reflexivity).
  assert (Hc : open_read mixed_fs (path_join (dirname (mkMySentences "corpus")) "a.txt") = Ok corpus_a)
    by (vm_compute; reflexivity).
  assert (Hk : nth_error (file_lines corpus_a) 1 = Some (String.append "  " NL))
    by (vm_compute; reflexivity).
  assert (Hb : blank (String.append "  " NL)) by (repeat constructor).
  assert (Hpre : Forall2 (fun fname c => open_read mixed_fs
                            (path_join (dirname (mkMySentences "corpus")) fname) = Ok c) [] [])
    by constructor.
  destruct (C mixed_fs (mkMySentences "corpus") [] "a.txt" ["sub"] [] corpus_a 1 _
              Hls Hpre Hc Hk Hb) as [g' Y].
  assert (E : (concat (map (fun c => map py_split (file_lines c)) []) ++
               map py_split (firstn 1 (file_lines corpus_a)) ++ [[]])%list = [["x"; "y"]; []])
    by (vm_compute; reflexivity).
  rewrite E in Y.
  assert (Ym : yields (mt_next lee_demo_fs lee_path) (MyText_iter mkMyText)
                 [["hello"; "world"]] (MT_lines [])).
  { apply (yields_cons (mt_next lee_demo_fs lee_path) MT_start ["hello"; "world"] (MT_lines [])).
    - vm_compute. reflexivity.
    - apply yields_nil. }
  split; [exists g'; exact Y|].
  split; [exact (A _ _ _ _ Y)|exact (B _ _ _ _ _ Ym)].
Defined.


(* ------------------------------------------------------------------ *)
(** ** Further properties of [str.split], [str.lower] and file lines *)

Lemma split_go_word (t s cur : string) :
  Forall (fun c => py_isspace c = false) (list_ascii_of_string t) ->
  split_go (String.append t s) cur = split_go s (String.append cur t).
Proof.
  revert cur. induction t as [|c t IH]; intros cur Ht.
  - now rewrite str_app_nil, str_app_empty.
  - inversion Ht as [|? ? Hc Hr]; subst. rewrite str_app_cons. simpl. rewrite Hc.
    rewrite IH by exact Hr. now rewrite <- str_app_assoc.
Qed.

(** X1: [str.split()] undoes joining well-formed tokens with single
    spaces, and re-splitting the space-joined result of a split changes
    nothing. *)
Theorem split_join_roundtrip :
  (forall toks : list string,
     Forall token_ok toks -> py_split (String.concat " " toks) = toks) /\
  (forall s : string, py_split (String.concat " " (py_split s)) = py_split s).
Proof.
  assert (H : forall toks : list string,
             Forall token_ok toks -> py_split (String.concat " " toks) = toks).
  { induction toks as [|t toks IH]; intros Hf; [reflexivity|].
    inversion Hf as [|? ? [Hne Ht] Hr]; subst.
    destruct toks as [|t' toks].
    - unfold py_split. simpl. rewrite <- (str_app_empty t), split_go_word by exact Ht.
      rewrite str_app_nil, str_app_empty. simpl.
      destruct (String.eqb_spec t ""); [contradiction|reflexivity].
    - change (String.concat " " (t :: t' :: toks))
        with (String.append t (String.append " " (String.concat " " (t' :: toks)))).
      unfold py_split. rewrite split_go_word by exact Ht. rewrite str_app_nil, str_app_cons.
      simpl. destruct (String.eqb_spec t ""); [contradiction|]. f_equal. exact (IH Hr). }
  split; [exact H|]. intros s. apply H, py_split_tokens.
Qed.

Lemma ascii_lower_isspace c : py_isspace (ascii_lower c) = py_isspace c.
Proof.
  unfold ascii_lower. destruct (Nat.leb 65 (nat_of_ascii c) && Nat.leb (nat_of_ascii c) 90) eqn:E;
    [|reflexivity].
  apply andb_true_iff in E as [E1 E2]. apply Nat.leb_le in E1, E2.
  unfold py_isspace. rewrite nat_ascii_embedding by lia.
  destruct (Nat.eqb (nat_of_ascii c + 32) 32) eqn:A; [apply Nat.eqb_eq in A; lia|].
  destruct (Nat.eqb (nat_of_ascii c) 32) eqn:B; [apply Nat.eqb_eq in B; lia|].
  simpl. repeat match goal with |- context [Nat.leb ?a ?b] =>
    let h := fresh in destruct (Nat.leb a b) eqn:h;
    [apply Nat.leb_le in h|apply Nat.leb_gt in h] end; simpl; lia || reflexivity.
Qed.

Lemma py_lower_app a b : py_lower (String.append a b) = String.append (py_lower a) (py_lower b).
Proof. induction a as [|c a IH]; [reflexivity|]. rewrite str_app_cons. simpl. now rewrite IH. Qed.

Lemma py_lower_empty_iff a : String.eqb (py_lower a) "" = String.eqb a "".
Proof. now destruct a. Qed.

Lemma split_go_lower s cur :
  split_go (py_lower s) (py_lower cur) = map py_lower (split_go s cur).
Proof.
  revert cur. induction s as [|c s IH]; intros cur; simpl.
  - rewrite py_lower_empty_iff. now destruct (String.eqb cur "").
  - rewrite ascii_lower_isspace. destruct (py_isspace c).
    + rewrite py_lower_empty_iff. destruct (String.eqb cur "").
      * exact (IH "").
      * simpl. f_equal. exact (IH "").
    + rewrite <- IH, py_lower_app. reflexivity.
Qed.

(** X2: in [MyText], lowercasing the line before splitting is the same
    as lowercasing each token of the split line. *)
Theorem lower_split_commute (s : string) :
  py_split (py_lower s) = map py_lower (py_split s).
Proof. exact (split_go_lower s ""). Qed.

Lemma ascii_lower_not_upper c : is_upper (ascii_lower c) = false.
Proof.
  unfold is_upper, ascii_lower.
  destruct (Nat.leb 65 (nat_of_ascii c) && Nat.leb (nat_of_ascii c) 90) eqn:E.
  - apply andb_true_iff in E as [E1 E2]. apply Nat.leb_le in E1, E2.
    rewrite nat_ascii_embedding by lia.
    destruct (Nat.leb (nat_of_ascii c + 32) 90) eqn:F; [apply Nat.leb_le in F; lia|].
    apply andb_false_r.
  - exact E.
Qed.

Lemma py_lower_lowercase t : lowercase (py_lower t).
Proof.
  unfold lowercase. induction t as [|c t IH]; simpl; constructor; [|exact IH].
  apply ascii_lower_not_upper.
Qed.

(** X3: every token [MyText] yields is free of capital letters. *)
Theorem MyText_tokens_lowercase (f : fs) (p : string) (o : MyText) (out : list sentence)
  (H : list_MyText f p o (Ok out)) :
  Forall (Forall lowercase) out.
Proof.
  eapply drains_yielded; [|exact H].
  intros g0 s g1 Hy. destruct (mt_next_yield _ _ _ _ _ Hy) as [line ->].
  unfold py_split. change "" with (py_lower ""). rewrite (split_go_lower line ""). induction (split_go line "") as [|t ts IH]; simpl; constructor;
    [apply py_lower_lowercase|exact IH].
Qed.

Lemma lines_go_shape s cur :
  no_char LF cur ->
  Forall line_ok (lines_go s cur) /\ Forall ends_NL (removelast (lines_go s cur)).
Proof.
  revert cur. induction s as [|c s IH]; intros cur Hcur; simpl.
  - destruct (String.eqb_spec cur ""); [split; constructor|].
    split; [|constructor]. constructor; [|constructor].
    split; [assumption|exists cur; split; [exact Hcur|now left]].
  - destruct (Ascii.eqb c LF) eqn:Hc.
    + apply Ascii.eqb_eq in Hc; subst c.
      destruct (IH "" ltac:(intros [])) as [H1 H2].
      assert (Hx : line_ok (String.append cur NL)).
      { split; [destruct cur; discriminate|].
        exists cur. split; [exact Hcur|now right]. }
      split; [constructor; assumption|].
      destruct (lines_go s "") as [|l ls]; [constructor|].
      constructor; [exists cur; reflexivity|exact H2].
    + apply IH. unfold no_char. rewrite list_ascii_app. simpl.
      intros Hin. apply in_app_or in Hin as [Hin|[Hin|[]]]; [exact (Hcur Hin)|].
      subst c. rewrite Ascii.eqb_refl in Hc. discriminate.
Qed.

(** X4: iterating a text file gives nonempty lines, each with a newline
    at most as its last character, every line but the last ending in a
    newline; put back together they are the file's text (after newline
    translation), so no character is lost or added. *)
Theorem file_lines_partition (contents : string) :
  String.concat "" (file_lines contents) = universal_newlines contents /\
  Forall line_ok (file_lines contents) /\
  Forall ends_NL (removelast (file_lines contents)).
Proof.
  split; [apply file_lines_concat|]. apply lines_go_shape. intros [].
Qed.

(* Text-mode reading removes carriage returns (used by X5 and the
   toy-data round trip). *)
Lemma universal_newlines_facts (s : string) :
  no_char CR (universal_newlines s) /\ (no_char CR s -> universal_newlines s = s).
Proof.
  assert (Hlf : LF <> CR) by discriminate.
  remember (String.length s) as n eqn:En.
  assert (Hle : String.length s <= n) by lia. clear En. revert s Hle.
  induction n as [|n IH]; intros s Hle.
  - destruct s; [|simpl in Hle; lia]. split; [intros []|reflexivity].
  - destruct s as [|c s]; [split; [intros []|reflexivity]|]. simpl in Hle.
    simpl. destruct (Ascii.eqb c CR) eqn:Hc.
    + apply Ascii.eqb_eq in Hc; subst c. split; [|intros H; exfalso; apply H; now left].
      destruct s as [|c' s'].
      * intros [H|[]]. exact (Hlf H).
      * destruct (Ascii.eqb c' LF).
        -- destruct (IH s' ltac:(simpl in Hle; lia)) as [H _].
           intros [Hx|Hx]; [exact (Hlf Hx)|exact (H Hx)].
        -- destruct (IH (String c' s') ltac:(simpl in *; lia)) as [H _].
           intros [Hx|Hx]; [exact (Hlf Hx)|exact (H Hx)].
    + destruct (IH s ltac:(lia)) as [H1 H2]. split.
      * intros [Hx|Hx]; [subst c; rewrite Ascii.eqb_refl in Hc; discriminate|exact (H1 Hx)].
      * intros H. rewrite H2; [reflexivity|]. intros Hx. apply H. now right.
Qed.

(** X5: reading a file in text mode leaves no carriage return, and a file
    without carriage returns is read unchanged. *)
Theorem universal_newlines_spec (s : string) :
  no_char CR (universal_newlines s) /\ (no_char CR s -> universal_newlines s = s).
Proof. exact (universal_newlines_facts s). Qed.

(* ------------------------------------------------------------------ *)
(** ** The toy-data cell, step by step *)

Lemma makedirs_data f :
  os_makedirs f "./data/" =
  if os_path_exists f "." then os_mkdir f "./data/" else Err FileNotFoundError.
Proof.
  unfold os_makedirs. change (String.length "./data/") with 7. cbn [makedirs_go].
  change (path_split "./data/") with ("./data", ""). cbv iota beta.
  change (String.eqb "" "") with true. cbv iota beta.
  change (path_split "./data") with (".", "data"). cbv iota beta.
  change (String.eqb "." "") with false. change (String.eqb "data" "") with false.
  change (String.eqb "data" ".") with false. cbn [negb andb].
  destruct (os_path_exists f ".") eqn:He; [reflexivity|].
  cbn [makedirs_go]. change (path_split ".") with ("", "."). cbv iota beta.
  change (String.eqb "." "") with false. cbv iota beta.
  change (String.eqb "" "") with true. cbn [negb andb].
  assert (Hm : os_mkdir f "." = Err FileNotFoundError).
  { unfold os_path_exists, fs_get in He. change (norm_path ".") with "." in He.
    unfold os_mkdir, fs_get. change (norm_path ".") with ".".
    destruct (f !! ".") as [[ns|c]|] eqn:Hd; try discriminate.
    change (parent_of ".") with (".", "."). cbv iota beta. unfold link_entry.
    rewrite Hd. reflexivity. }
  rewrite Hm. reflexivity.
Qed.

(** The directory step of the cell: nothing to do when [./data/] exists;
    otherwise one [os.mkdir], which fails when the working directory
    itself is missing. *)
Lemma make_data_dir_eq f :
  make_data_dir f =
  if os_path_exists f "./data/" then Ok f
  else if os_path_exists f "." then os_mkdir f "./data/" else Err FileNotFoundError.
Proof.
  unfold make_data_dir. destruct (os_path_exists f "./data/"); [reflexivity|].
  apply makedirs_data.
Qed.


Lemma cell_toy_data_len f s f' : cell_toy_data f s = Ok f' -> 2 <= length s.
Proof.
  destruct s as [|s0 [|s1 rest]]; [| |simpl; lia];
    unfold cell_toy_data, cell_toy_data_run;
    destruct (make_data_dir f) as [f0|e]; try discriminate;
    unfold filenames; cbn [write_files];
    destruct (open_write f0 "./data/f1.txt") as [g1|e]; try discriminate;
    unfold py_index; cbn [nth_error]; try discriminate;
    cbn [write_files];
    destruct (open_write _ "./data/f2.txt") as [g2|e]; discriminate.
Qed.

(** [write_files] reads [sentences] only at the indices it reaches. *)
Lemma write_files_ext f fnames i s s' :
  (forall j, j < length fnames -> nth_error s (i + j) = nth_error s' (i + j)) ->
  write_files f fnames i s = write_files f fnames i s'.
Proof.
  revert f i. induction fnames as [|fname rest IH]; intros f i H; [reflexivity|].
  simpl. destruct (open_write f fname) as [f1|e]; [|reflexivity].
  unfold py_index. rewrite <- (Nat.add_0_r i), H by (simpl; lia).
  destruct (nth_error s' (i + 0)) as [toks|]; [|reflexivity].
  apply IH. intros j Hj. replace (S (i + 0) + j) with (i + S j) by lia.
  apply H. simpl. lia.
Qed.

Lemma open_write_lookup f p g :
  norm_path p = p -> open_write f p = Ok g -> g !! p = Some (File "").
Proof.
  intros Hn. unfold open_write, fs_get. rewrite Hn.
  destruct (f !! p) as [[ns|c]|]; [discriminate| |];
    destruct (parent_of p) as [d t];
    destruct (link_entry f d t) as [L|e]; try discriminate;
    simpl; intros H; injection H as <-; apply lookup_insert_eq.
Qed.

Lemma open_write_frame f p d t g :
  norm_path p = p -> parent_of p = (d, t) -> open_write f p = Ok g ->
  forall k, k <> p -> k <> d -> g !! k = f !! k.
Proof.
  intros Hn Hp. unfold open_write, fs_get. rewrite Hn, Hp.
  destruct (f !! p) as [[ns|c]|]; [discriminate| |];
    destruct (link_entry f d t) as [L|e] eqn:HL; try discriminate;
    simpl; intros H; injection H as <-; intros k Hk1 Hk2;
    rewrite lookup_insert_ne by congruence;
    apply link_entry_spec in HL as [_ O]; now apply O.
Qed.

Lemma write_loop_frame p toks g k :
  k <> norm_path p ->
  fold_left (fun f line => file_write f p (String.append line NL)) toks g !! k = g !! k.
Proof.
  revert g. induction toks as [|tok toks IH]; intros g Hk; [reflexivity|].
  simpl. rewrite IH by exact Hk. unfold file_write.
  destruct (fs_get g p) as [[ns|c]|]; try reflexivity.
  apply lookup_insert_ne. congruence.
Qed.

(** Every path other than the files [write_files] opens and their
    directories keeps its entry, however the loop ends. *)
Lemma write_files_frame f fnames i s f' r k :
  write_files f fnames i s = (f', r) ->
  Forall (fun p => norm_path p = p /\ k <> p /\ k <> fst (parent_of p)) fnames ->
  f' !! k = f !! k.
Proof.
  revert f i. induction fnames as [|fname rest IH]; intros f i H Hall.
  - simpl in H. now injection H as <- _.
  - apply Forall_cons in Hall as [(Hn & Hk1 & Hk2) Hall].
    simpl in H. destruct (open_write f fname) as [f1|e] eqn:Ho;
      [|now injection H as <- _].
    assert (F1 : f1 !! k = f !! k).
    { destruct (parent_of fname) as [d t] eqn:Hp.
      exact (open_write_frame _ _ _ _ _ Hn Hp Ho k Hk1 Hk2). }
    destruct (py_index s i) as [toks|e]; [|injection H as <- _; exact F1].
    rewrite (IH _ _ H Hall), write_loop_frame by congruence. exact F1.
Qed.

Lemma os_mkdir_data_frame f g :
  os_mkdir f "./data/" = Ok g -> forall k, k <> "./data" -> k <> "." -> g !! k = f !! k.
Proof.
  unfold os_mkdir. destruct (fs_get f "./data/"); [discriminate|].
  change (parent_of "./data/") with (".", "data"). cbv iota beta.
  destruct (link_entry f "." "data") as [L|e] eqn:HL; [|discriminate].
  simpl. intros H. injection H as <-. intros k Hk1 Hk2.
  change (norm_path "./data/") with "./data". rewrite lookup_insert_ne by congruence.
  apply link_entry_spec in HL as [_ O]. now apply O.
Qed.

Lemma make_data_dir_frame f g :
  make_data_dir f = Ok g -> forall k, k <> "./data" -> k <> "." -> g !! k = f !! k.
Proof.
  rewrite make_data_dir_eq. destruct (os_path_exists f "./data/").
  - intros H. now injection H as <-.
  - destruct (os_path_exists f "."); [apply os_mkdir_data_frame|discriminate].
Qed.

Lemma write_tokens_eq f p d t toks :
  norm_path p = p -> parent_of p = (d, t) ->
  write_tokens f p toks =
  match f !! p with
  | Some (Dir _) => Err IsADirectoryError
  | _ => g <- link_entry f d t ;; Ok (<[p := File (tokens_text toks)]> g)
  end.
Proof.
  intros Hn Hp. unfold write_tokens, open_write, fs_get. rewrite Hn, Hp.
  destruct (f !! p) as [[ns|c]|]; try reflexivity;
    destruct (link_entry f d t) as [g|e]; simpl; try reflexivity;
    rewrite <- Hn at 1; rewrite write_loop, Hn; reflexivity.
Qed.

Lemma link_entry_grow f d t f1 :
  link_entry f d t = Ok f1 ->
  exists ns ns', f !! d = Some (Dir ns) /\ f1 !! d = Some (Dir ns') /\
                 In t ns' /\ incl ns ns'.
Proof.
  unfold link_entry. destruct (f !! d) as [[ns|c]|] eqn:Hd; try discriminate.
  intros H. injection H as <-. exists ns.
  destruct (existsb (String.eqb t) ns) eqn:He.
  - exists ns. split; [reflexivity|split; [exact Hd|split; [|apply incl_refl]]].
    apply existsb_exists in He as [x [Hx Ht]]. apply String.eqb_eq in Ht. now subst.
  - exists (ns ++ [t])%list. split; [reflexivity|split; [apply lookup_insert_eq|split]].
    + apply in_or_app. right. now left.
    + apply incl_appl, incl_refl.
Qed.

Lemma link_entry_present f d t ns :
  f !! d = Some (Dir ns) -> In t ns -> link_entry f d t = Ok f.
Proof.
  intros Hd Hin. unfold link_entry. rewrite Hd.
  replace (existsb (String.eqb t) ns) with true; [reflexivity|].
  symmetry. apply existsb_exists. exists t. split; [exact Hin|apply String.eqb_refl].
Qed.

Lemma write_tokens_frame f p d t toks g :
  norm_path p = p -> parent_of p = (d, t) -> write_tokens f p toks = Ok g ->
  forall k, k <> p -> k <> d -> g !! k = f !! k.
Proof.
  intros Hn Hp. rewrite (write_tokens_eq _ _ _ _ _ Hn Hp).
  destruct (f !! p) as [[ns|c]|]; try discriminate;
    destruct (link_entry f d t) as [L|e] eqn:HL; try discriminate;
    simpl; intros H; injection H as <-; intros k Hk1 Hk2;
    rewrite lookup_insert_ne by congruence;
    apply link_entry_spec in HL as [_ O]; now apply O.
Qed.












Lemma write_f1_eq f toks :
  write_tokens f "./data/f1.txt" toks =
  match f !! "./data/f1.txt" with
  | Some (Dir _) => Err IsADirectoryError
  | _ => g <- link_entry f "./data" "f1.txt" ;;
         Ok (<["./data/f1.txt" := File (tokens_text toks)]> g)
  end.
Proof. apply write_tokens_eq; reflexivity. Qed.

Lemma write_f2_eq f toks :
  write_tokens f "./data/f2.txt" toks =
  match f !! "./data/f2.txt" with
  | Some (Dir _) => Err IsADirectoryError
  | _ => g <- link_entry f "./data" "f2.txt" ;;
         Ok (<["./data/f2.txt" := File (tokens_text toks)]> g)
  end.
Proof. apply write_tokens_eq; reflexivity. Qed.

(** Once a token file has been written, writing the same tokens to it
    again leaves the file system as it is. *)
Lemma write_tokens_again f p d t toks ns :
  norm_path p = p -> parent_of p = (d, t) ->
  f !! p = Some (File (tokens_text toks)) -> f !! d = Some (Dir ns) -> In t ns ->
  write_tokens f p toks = Ok f.
Proof.
  intros Hn Hp Hf Hd Hin. rewrite (write_tokens_eq _ _ _ _ _ Hn Hp), Hf.
  rewrite (link_entry_present _ _ _ _ Hd Hin). simpl. now rewrite insert_id.
Qed.

(** X7: running the toy-data cell a second time, on the file system
    the first successful run left behind, succeeds and changes nothing. *)
Theorem toy_data_rerun_idempotent (f : fs) (s : list (list string)) (f' : fs)
  (H : cell_toy_data f s = Ok f') :
  cell_toy_data f' s = Ok f'.
Proof.
  pose proof (cell_toy_data_len _ _ _ H) as Hlen.
  destruct s as [|s0 [|s1 rest]]; [simpl in Hlen; lia|simpl in Hlen; lia|].
  rewrite cell_toy_data_two in H |- *.
  destruct (make_data_dir f) as [fA|e]; [|discriminate]. simpl in H.
  destruct (write_tokens fA "./data/f1.txt" s0) as [g1|e] eqn:W1; [|discriminate].
  simpl in H. rewrite write_f1_eq in W1. rewrite write_f2_eq in H.
  destruct (fA !! "./data/f1.txt") as [[ns|c]|]; [discriminate| |];
  (destruct (link_entry fA "./data" "f1.txt") as [L1|e] eqn:HL1; [|discriminate]);
  simpl in W1; injection W1 as <-;
  (destruct (link_entry_grow _ _ _ _ HL1) as (ns0 & ns1 & _ & D1 & In1 & _));
  (destruct ((<["./data/f1.txt" := File (tokens_text s0)]> L1) !! "./data/f2.txt")
     as [[ns'|c']|]; [discriminate| |]);
  (destruct (link_entry (<["./data/f1.txt" := File (tokens_text s0)]> L1) "./data" "f2.txt")
     as [L2|e] eqn:HL2; [|discriminate]);
  simpl in H; injection H as <-;
  (destruct (link_entry_grow _ _ _ _ HL2) as (ns1' & ns2 & D1' & D2 & In2 & Inc));
  rewrite lookup_insert_ne in D1' by discriminate;
  rewrite D1 in D1'; injection D1' as <-;
  apply link_entry_spec in HL2 as [_ O2];
  (assert (E : os_path_exists (<["./data/f2.txt" := File (tokens_text s1)]> L2) "./data/" = true)
     by (unfold os_path_exists, fs_get; change (norm_path "./data/") with "./data";
         rewrite lookup_insert_ne by discriminate; now rewrite D2));
  unfold make_data_dir; rewrite E; simpl;
  (rewrite (write_tokens_again _ "./data/f1.txt" "./data" "f1.txt" s0 ns2);
     [| reflexivity | reflexivity
      | rewrite lookup_insert_ne, O2, lookup_insert_eq by discriminate; reflexivity
      | rewrite lookup_insert_ne by discriminate; exact D2
      | exact (Inc _ In1)]);
  simpl;
  (apply (write_tokens_again _ "./data/f2.txt" "./data" "f2.txt" s1 ns2);
     [reflexivity | reflexivity | apply lookup_insert_eq
      | rewrite lookup_insert_ne by discriminate; exact D2 | exact In2]).
Qed.

(** X8: the toy-data cell reads only the first two sentences: with fewer
    it never succeeds, and sentences after the second make no difference
    to the run.  [open(fname, 'w')] comes before [sentences[i]]: once the
    directory step succeeds, a missing first sentence raises [IndexError]
    after [f1.txt] has been created empty, and a missing second one after
    [f1.txt] has been written and [f2.txt] created empty. *)
Theorem toy_data_uses_first_two :
  (forall f s f', cell_toy_data f s = Ok f' -> 2 <= length s) /\
  (forall f s0 s1 rest, cell_toy_data_run f (s0 :: s1 :: rest) = cell_toy_data_run f [s0; s1]) /\
  (forall f f0 g, make_data_dir f = Ok f0 -> open_write f0 "./data/f1.txt" = Ok g ->
     cell_toy_data_run f [] = (g, Err IndexError) /\ g !! "./data/f1.txt" = Some (File "")) /\
  (forall f f0 s0 g h, make_data_dir f = Ok f0 -> write_tokens f0 "./data/f1.txt" s0 = Ok g ->
     open_write g "./data/f2.txt" = Ok h ->
     cell_toy_data_run f [s0] = (h, Err IndexError) /\ h !! "./data/f2.txt" = Some (File "")).
Proof.
  split; [exact cell_toy_data_len|split; [|split]].
  - intros f s0 s1 rest. unfold cell_toy_data_run. destruct (make_data_dir f); [|reflexivity].
    apply write_files_ext. intros j Hj. unfold filenames in Hj. simpl in Hj.
    destruct j as [|[|j]]; [reflexivity|reflexivity|lia].
  - intros f f0 g H0 Hg. unfold cell_toy_data_run. rewrite H0. unfold filenames.
    cbn [write_files]. rewrite Hg. split; [reflexivity|].
    exact (open_write_lookup _ _ _ eq_refl Hg).
  - intros f f0 s0 g h H0 Hg Hh. unfold cell_toy_data_run. rewrite H0. unfold filenames.
    rewrite (write_files_cons_ok _ _ _ _ _ s0) by reflexivity. rewrite Hg.
    cbn [write_files]. rewrite Hh. split; [reflexivity|].
    exact (open_write_lookup _ _ _ eq_refl Hh).
Qed.

(** X9: whether it completes or raises, the toy-data cell touches only
    the working directory's entry list, [./data] and the two files it
    writes: every other path keeps its contents. *)
Theorem toy_data_frame (f : fs) (s : list (list string)) (f' : fs) (r : result unit)
  (H : cell_toy_data_run f s = (f', r)) (k : string)
  (Hk0 : k <> ".") (Hk1 : k <> "./data")
  (Hk2 : k <> "./data/f1.txt") (Hk3 : k <> "./data/f2.txt") :
  f' !! k = f !! k.
Proof.
  unfold cell_toy_data_run in H. destruct (make_data_dir f) as [f0|e] eqn:HA;
    [|now injection H as <- _].
  rewrite (write_files_frame _ _ _ _ _ _ k H).
  - exact (make_data_dir_frame _ _ HA k Hk1 Hk0).
  - unfold filenames. repeat constructor; cbn; assumption.
Qed.

(* ------------------------------------------------------------------ *)
(** ** [MySentences] over a directory with an unreadable entry *)

Lemma ms_yields_to_error f d pre contents n post e lines :
  Forall2 (fun fname c => open_read f (path_join d fname) = Ok c) pre contents ->
  open_read f (path_join d n) = Err e ->
  exists g', yields (ms_next f) (MS_lines d (pre ++ n :: post)%list lines)
               (map py_split lines ++ concat (map (fun c => map py_split (file_lines c)) contents))%list g'
             /\ ms_next f g' = Raise e.
Proof.
  intros Hpre He. revert lines.
  induction Hpre as [|fname c pre contents Ho _ IH]; intros lines;
    induction lines as [|line lines IHl].
  - exists (MS_lines d (n :: post) []). split; [constructor|]. simpl. now rewrite He.
  - destruct IHl as (g' & Y & R). exists g'. split; [|exact R].
    eapply yields_cons; [reflexivity|exact Y].
  - cbn [map app concat]. destruct (file_lines c) as [|line0 ls] eqn:Hl.
    + destruct (IH []) as (g' & Y & R).
      assert (E : ms_next f (MS_lines d (fname :: pre ++ n :: post)%list []) =
                  ms_next f (MS_lines d (pre ++ n :: post)%list [])) by (simpl; now rewrite Ho, Hl).
      destruct (yields_same_next _ _ _ _ _ E Y) as (g'' & Y' & R').
      exists g''. split; [exact Y'|congruence].
    + destruct (IH ls) as (g' & Y & R). exists g'. split; [|exact R].
      simpl. eapply yields_cons; [simpl; rewrite Ho, Hl; reflexivity|]. exact Y.
  - destruct IHl as (g' & Y & R). exists g'. split; [|exact R].
    eapply yields_cons; [reflexivity|exact Y].
Qed.

Lemma ms_collect_err f d pre contents n post e :
  Forall2 (fun fname c => open_read f (path_join d fname) = Ok c) pre contents ->
  open_read f (path_join d n) = Err e ->
  ms_collect f d (pre ++ n :: post)%list = Err e.
Proof.
  intros Hpre He. induction Hpre as [|fname c pre contents Ho _ IH]; simpl.
  - now rewrite He.
  - rewrite Ho, IH. apply prepend_err.
Qed.

(** X10: when the listing of [self.dirname] has an entry that cannot be
    opened (a subdirectory, say) and every entry before it opens,
    iterating [MySentences] yields the sentences of the earlier files and
    then raises that entry's error; so [list(..)] raises it, whatever
    follows the entry in the listing. *)
Theorem MySentences_stops_at_unreadable (f : fs) (o : MySentences)
  (pre : list string) (n : string) (post : list string) (contents : list string) (e : py_error)
  (Hls : os_listdir f (dirname o) = Ok (pre ++ n :: post)%list)
  (Hpre : Forall2 (fun fname c => open_read f (path_join (dirname o) fname) = Ok c) pre contents)
  (He : open_read f (path_join (dirname o) n) = Err e) :
  (exists g', yields (ms_next f) (MySentences_iter o)
                (concat (map (fun c => map py_split (file_lines c)) contents)) g'
              /\ ms_next f g' = Raise e) /\
  (forall r, list_MySentences f o r <-> r = Err e).
Proof.
  split.
  - destruct (ms_yields_to_error f (dirname o) pre contents n post e [] Hpre He) as (g' & Y & R).
    assert (E : ms_next f (MySentences_iter o) =
                ms_next f (MS_lines (dirname o) (pre ++ n :: post)%list []))
      by (unfold MySentences_iter; simpl; now rewrite Hls).
    destruct (yields_same_next _ _ _ _ _ E Y) as (g'' & Y' & R').
    exists g''. split; [exact Y'|congruence].
  - intros r. rewrite ms_drains_iff. unfold ms_expected. rewrite Hls.
    now rewrite (ms_collect_err _ _ _ _ _ _ _ Hpre He).
Qed.

(* ------------------------------------------------------------------ *)
(** ** [MyText] and the case of the training file *)

Lemma ascii_lower_idem c : ascii_lower (ascii_lower c) = ascii_lower c.
Proof. destruct c as [[] [] [] [] [] [] [] []]; reflexivity. Qed.

Lemma ascii_lower_eqb_LF c : Ascii.eqb (ascii_lower c) LF = Ascii.eqb c LF.
Proof. destruct c as [[] [] [] [] [] [] [] []]; reflexivity. Qed.

Lemma ascii_lower_eqb_CR c : Ascii.eqb (ascii_lower c) CR = Ascii.eqb c CR.
Proof. destruct c as [[] [] [] [] [] [] [] []]; reflexivity. Qed.

Lemma ascii_lower_LF : ascii_lower LF = LF.
Proof. reflexivity. Qed.

Lemma py_lower_idem s : py_lower (py_lower s) = py_lower s.
Proof. induction s as [|c s IH]; simpl; [reflexivity|]. now rewrite ascii_lower_idem, IH. Qed.

Lemma universal_newlines_lower s :
  universal_newlines (py_lower s) = py_lower (universal_newlines s).
Proof.
  remember (String.length s) as n eqn:En.
  assert (Hle : String.length s <= n) by lia. clear En. revert s Hle.
  induction n as [|n IH]; intros [|c s] Hle; try reflexivity; [simpl in Hle; lia|].
  simpl in Hle. cbn [py_lower universal_newlines]. rewrite ascii_lower_eqb_CR.
  destruct (Ascii.eqb c CR).
  - destruct s as [|c' s'']; [reflexivity|].
    cbn [py_lower]. rewrite ascii_lower_eqb_LF. simpl in Hle.
    destruct (Ascii.eqb c' LF); cbn [py_lower]; rewrite ascii_lower_LF.
    + rewrite IH by lia. reflexivity.
    + change (String (ascii_lower c') (py_lower s'')) with (py_lower (String c' s'')).
      rewrite IH by (simpl; lia). reflexivity.
  - rewrite IH by lia. reflexivity.
Qed.

Lemma lines_go_lower s cur :
  lines_go (py_lower s) (py_lower cur) = map py_lower (lines_go s cur).
Proof.
  revert cur. induction s as [|c s IH]; intros cur.
  - cbn [py_lower lines_go]. rewrite py_lower_empty_iff.
    destruct (String.eqb cur ""); reflexivity.
  - cbn [py_lower lines_go]. rewrite ascii_lower_eqb_LF. destruct (Ascii.eqb c LF).
    + change "" with (py_lower ""). rewrite IH. cbn [map].
      rewrite py_lower_app. reflexivity.
    + change (String (ascii_lower c) "") with (py_lower (String c "")).
      rewrite <- py_lower_app. apply IH.
Qed.

Lemma file_lines_lower c : file_lines (py_lower c) = map py_lower (file_lines c).
Proof.
  unfold file_lines. rewrite universal_newlines_lower.
  change "" with (py_lower ""). apply lines_go_lower.
Qed.

(** X11: [MyText] lowercases every line before splitting, so it gives
    the same result on a training file and on its lowercased copy. *)
Theorem MyText_ignores_file_case (f g : fs) (p c : string) (o : MyText)
  (Hf : open_read f p = Ok c) (Hg : open_read g p = Ok (py_lower c)) :
  forall r, list_MyText f p o r <-> list_MyText g p o r.
Proof.
  intros r. rewrite !mt_drains_iff. unfold mt_expected. rewrite Hf, Hg.
  rewrite file_lines_lower, map_map.
  replace (map (fun x => py_split (py_lower (py_lower x))) (file_lines c))
    with (map (fun line => py_split (py_lower line)) (file_lines c)); [reflexivity|].
  apply map_ext. intros x. now rewrite py_lower_idem.
Qed.

(* ------------------------------------------------------------------ *)
(** ** [MySentences] and a trailing slash on [dirname] *)

Lemma ends_slash_app_slash d : ends_slash (String.append d "/") = true.
Proof.
  unfold ends_slash. rewrite list_ascii_app, rev_app_distr. reflexivity.
Qed.

Lemma norm_path_app_slash d :
  d <> "" -> ends_slash d = false -> norm_path (String.append d "/") = norm_path d.
Proof.
  intros Hne Hs. unfold norm_path, rstrip_slashes.
  rewrite list_ascii_app, rev_app_distr. cbn [rev list_ascii_of_string app drop_slashes].
  change (Ascii.eqb "/" SLASH) with true. cbv iota.
  unfold ends_slash in Hs.
  destruct (rev (list_ascii_of_string d)) as [|c rest] eqn:E.
  - exfalso. apply Hne. apply (f_equal (@length ascii)) in E.
    rewrite length_rev in E. destruct d; [reflexivity|discriminate].
  - cbn [drop_slashes]. rewrite Hs. reflexivity.
Qed.

Lemma path_join_app_slash d n :
  d <> "" -> ends_slash d = false -> path_join (String.append d "/") n = path_join d n.
Proof.
  intros Hne Hs. unfold path_join. rewrite ends_slash_app_slash, Hs, orb_true_r.
  replace (String.eqb d "") with false by (symmetry; now apply String.eqb_neq).
  destruct n as [|c n]; cbn [orb]; [reflexivity|].
  destruct (Ascii.eqb c SLASH); [reflexivity|]. symmetry. apply str_app_assoc.
Qed.

Lemma ms_collect_app_slash f d fnames :
  d <> "" -> ends_slash d = false ->
  ms_collect f (String.append d "/") fnames = ms_collect f d fnames.
Proof.
  intros Hne Hs. induction fnames as [|n rest IH]; [reflexivity|].
  simpl. now rewrite path_join_app_slash, IH.
Qed.

(** X12: [os.listdir] and [os.path.join] treat [d] and [d + '/'] alike,
    so [MySentences('./data')] reads exactly what [MySentences('./data/')]
    reads, errors included. *)
Theorem MySentences_trailing_slash (f : fs) (d : string)
  (Hne : d <> "") (Hs : ends_slash d = false) :
  forall r, list_MySentences f (mkMySentences d) r <->
            list_MySentences f (mkMySentences (String.append d "/")) r.
Proof.
  intros r. rewrite !ms_drains_iff. simpl dirname. unfold ms_expected.
  assert (L : os_listdir f (String.append d "/") = os_listdir f d).
  { unfold os_listdir, fs_get. now rewrite norm_path_app_slash. }
  rewrite L. destruct (os_listdir f d) as [fnames|e]; [|reflexivity].
  now rewrite ms_collect_app_slash.
Qed.

(* ------------------------------------------------------------------ *)
(** ** Paths of the wrong kind *)

(** X13: [MySentences] over a regular file raises [NotADirectoryError]
    (from [os.listdir]), and [MyText] over a directory raises
    [IsADirectoryError] (from [open]), before anything is yielded. *)
Theorem iterators_wrong_kind (f : fs) (d p c : string) (ns : list string) (o : MyText)
  (Hd : fs_get f d = Some (File c)) (Hp : fs_get f p = Some (Dir ns)) :
  ms_next f (MySentences_iter (mkMySentences d)) = Raise NotADirectoryError /\
  (forall r, list_MySentences f (mkMySentences d) r <-> r = Err NotADirectoryError) /\
  mt_next f p (MyText_iter o) = Raise IsADirectoryError /\
  (forall r, list_MyText f p o r <-> r = Err IsADirectoryError).
Proof.
  assert (L : os_listdir f d = Err NotADirectoryError) by (unfold os_listdir; now rewrite Hd).
  assert (R : open_read f p = Err IsADirectoryError) by (unfold open_read; now rewrite Hp).
  split; [simpl; now rewrite L|split; [|split]].
  - intros r. rewrite ms_drains_iff. unfold ms_expected. simpl dirname. now rewrite L.
  - simpl. now rewrite R.
  - intros r. rewrite mt_drains_iff. unfold mt_expected. now rewrite R.
Qed.

(* ------------------------------------------------------------------ *)
(** ** Failures of the toy-data cell *)

(** X14: the toy-data cell raises when a path it needs has the wrong
    kind.  A regular file [./data] makes [os.makedirs] raise
    [FileExistsError] (the check [os.path.exists('./data/')] is false for
    a file) before anything is written.  A directory at [f1.txt] makes
    [open(.., 'w')] raise [IsADirectoryError] before anything is written,
    whatever the sentences.  A directory at [f2.txt] (and none at
    [f1.txt]) makes it raise there, after [f1.txt] has been written with
    the first sentence. *)
Theorem toy_data_errors (f : fs) :
  (forall ns0 c s, f !! "." = Some (Dir ns0) -> f !! "./data" = Some (File c) ->
     cell_toy_data_run f s = (f, Err FileExistsError)) /\
  (forall ns ns1 s, f !! "./data" = Some (Dir ns) ->
     f !! "./data/f1.txt" = Some (Dir ns1) ->
     cell_toy_data_run f s = (f, Err IsADirectoryError)) /\
  (forall ns ns2 s0 rest, f !! "./data" = Some (Dir ns) ->
     (forall ns1, f !! "./data/f1.txt" <> Some (Dir ns1)) ->
     f !! "./data/f2.txt" = Some (Dir ns2) ->
     exists g, cell_toy_data_run f (s0 :: rest) = (g, Err IsADirectoryError) /\
       g !! "./data/f1.txt" = Some (File (tokens_text s0))).
Proof.
  assert (Ex : forall ns, f !! "./data" = Some (Dir ns) -> make_data_dir f = Ok f).
  { intros ns Hd. unfold make_data_dir, os_path_exists, fs_get.
    change (norm_path "./data/") with "./data". now rewrite Hd. }
  split; [|split].
  - intros ns0 c s Hcwd Hd. unfold cell_toy_data_run. rewrite make_data_dir_eq.
    assert (E : os_path_exists f "./data/" = false).
    { unfold os_path_exists, fs_get. change (norm_path "./data/") with "./data".
      now rewrite Hd. }
    assert (E0 : os_path_exists f "." = true).
    { unfold os_path_exists, fs_get. change (norm_path ".") with ".". now rewrite Hcwd. }
    rewrite E, E0. unfold os_mkdir, fs_get.
    change (norm_path "./data/") with "./data". rewrite Hd. reflexivity.
  - intros ns ns1 s Hd H1. unfold cell_toy_data_run. rewrite (Ex ns Hd).
    unfold filenames. cbn [write_files]. unfold open_write, fs_get.
    change (norm_path "./data/f1.txt") with "./data/f1.txt". rewrite H1. reflexivity.
  - intros ns ns2 s0 rest Hd H1 H2. unfold cell_toy_data_run. rewrite (Ex ns Hd).
    unfold filenames. rewrite (write_files_cons_ok _ _ _ _ _ s0) by reflexivity.
    rewrite write_f1_eq.
    assert (HL : link_entry f "./data" "f1.txt" =
                 Ok (if existsb (String.eqb "f1.txt") ns then f
                     else <["./data" := Dir (ns ++ ["f1.txt"])%list]> f))
      by (unfold link_entry; now rewrite Hd).
    assert (K : forall g, link_entry f "./data" "f1.txt" = Ok g ->
                  (<["./data/f1.txt" := File (tokens_text s0)]> g) !! "./data/f2.txt" = Some (Dir ns2)).
    { intros g Hg. rewrite lookup_insert_ne by discriminate.
      apply link_entry_spec in Hg as [_ O]. rewrite O by discriminate. exact H2. }
    destruct (f !! "./data/f1.txt") as [[ns1|c]|] eqn:E1;
      [exfalso; exact (H1 ns1 eq_refl)| |];
      rewrite HL; cbn [bind]; cbn [write_files];
      (unfold open_write at 1; unfold fs_get at 1;
       change (norm_path "./data/f2.txt") with "./data/f2.txt"; rewrite (K _ HL));
      eexists; (split; [reflexivity|apply lookup_insert_eq]).
Qed.

(** X15: after a successful run of the toy-data cell, [f1.txt] and
    [f2.txt] hold exactly the first and second sentences, one token per
    line, whatever they held before (mode ['w'] truncates), and the
    listing of [./data] names both files. *)
Theorem toy_data_post (f : fs) (s0 s1 : list string) (rest : list (list string)) (f' : fs)
  (H : cell_toy_data f (s0 :: s1 :: rest) = Ok f') :
  f' !! "./data/f1.txt" = Some (File (tokens_text s0)) /\
  f' !! "./data/f2.txt" = Some (File (tokens_text s1)) /\
  exists ns, os_listdir f' "./data/" = Ok ns /\ In "f1.txt" ns /\ In "f2.txt" ns.
Proof.
  rewrite cell_toy_data_two in H.
  destruct (make_data_dir f) as [fA|e]; [|discriminate]. simpl in H.
  destruct (write_tokens fA "./data/f1.txt" s0) as [g1|e] eqn:W1; [|discriminate].
  simpl in H. rewrite write_f1_eq in W1. rewrite write_f2_eq in H.
  destruct (fA !! "./data/f1.txt") as [[ns|c]|]; [discriminate| |];
  (destruct (link_entry fA "./data" "f1.txt") as [L1|e] eqn:HL1; [|discriminate]);
  simpl in W1; injection W1 as <-;
  (destruct (link_entry_grow _ _ _ _ HL1) as (ns0 & ns1 & _ & D1 & In1 & _));
  (destruct ((<["./data/f1.txt" := File (tokens_text s0)]> L1) !! "./data/f2.txt")
     as [[ns'|c']|]; [discriminate| |]);
  (destruct (link_entry (<["./data/f1.txt" := File (tokens_text s0)]> L1) "./data" "f2.txt")
     as [L2|e] eqn:HL2; [|discriminate]);
  simpl in H; injection H as <-;
  (destruct (link_entry_grow _ _ _ _ HL2) as (ns1' & ns2 & D1' & D2 & In2 & Inc));
  rewrite lookup_insert_ne in D1' by discriminate;
  rewrite D1 in D1'; injection D1' as <-;
  apply link_entry_spec in HL2 as [_ O2];
  (split; [rewrite lookup_insert_ne, O2, lookup_insert_eq by discriminate; reflexivity|]);
  (split; [apply lookup_insert_eq|]);
  exists ns2; (split; [|split; [exact (Inc _ In1)|exact In2]]);
  unfold os_listdir, fs_get; change (norm_path "./data/") with "./data";
  rewrite lookup_insert_ne by discriminate; now rewrite D2.
Qed.

(* ------------------------------------------------------------------ *)
(** ** What the iterators read *)

Lemma ms_collect_ext f g d ns :
  Forall (fun n =>
    match open_read f (path_join d n), open_read g (path_join d n) with
    | Ok a, Ok b => file_lines a = file_lines b
    | Err e1, Err e2 => e1 = e2
    | _, _ => False
    end) ns ->
  ms_collect f d ns = ms_collect g d ns.
Proof.
  induction 1 as [|n ns Hn _ IH]; [reflexivity|]. simpl.
  destruct (open_read f (path_join d n)), (open_read g (path_join d n)); try contradiction.
  - now rewrite Hn, IH.
  - now subst.
Qed.

Lemma file_lines_universal c : file_lines (universal_newlines c) = file_lines c.
Proof.
  unfold file_lines.
  now rewrite (proj2 (universal_newlines_facts (universal_newlines c))
                 (proj1 (universal_newlines_facts c))).
Qed.

(** X16: an iteration reads nothing but [os.listdir(self.dirname)] and
    the listed files ([MySentences]), or the training file ([MyText]):
    two file systems that agree there give the same [list(..)]. *)
Theorem iterators_read_only_their_files (f g : fs) (o : MySentences) (p : string) (t : MyText)
  (Hl : os_listdir f (dirname o) = os_listdir g (dirname o))
  (Hfiles : forall ns, os_listdir f (dirname o) = Ok ns ->
     Forall (fun n => open_read f (path_join (dirname o) n) =
                      open_read g (path_join (dirname o) n)) ns)
  (Hp : open_read f p = open_read g p) :
  (forall r, list_MySentences f o r <-> list_MySentences g o r) /\
  (forall r, list_MyText f p t r <-> list_MyText g p t r).
Proof.
  split; intros r.
  - rewrite !ms_drains_iff. unfold ms_expected. rewrite <- Hl.
    destruct (os_listdir f (dirname o)) as [ns|e] eqn:E; [|reflexivity].
    rewrite (ms_collect_ext f g); [reflexivity|].
    specialize (Hfiles ns eq_refl). clear E Hl.
    induction Hfiles as [|n ns Hn _ IH]; [constructor|]. constructor; [|exact IH].
    rewrite Hn. now destruct (open_read g (path_join (dirname o) n)).
  - rewrite !mt_drains_iff. unfold mt_expected. now rewrite Hp.
Qed.

(** X17: [open] translates ["\r\n"] and ["\r"] to ["\n"], so both
    iterators give the same sentences for files with DOS, old Mac or Unix
    line endings. *)
Theorem iterators_ignore_line_endings (f g : fs) (o : MySentences) (ns : list string)
  (p c : string) (t : MyText)
  (Hlf : os_listdir f (dirname o) = Ok ns) (Hlg : os_listdir g (dirname o) = Ok ns)
  (Hfiles : Forall (fun n => exists c, open_read f (path_join (dirname o) n) = Ok c /\
              open_read g (path_join (dirname o) n) = Ok (universal_newlines c)) ns)
  (Hpf : open_read f p = Ok c) (Hpg : open_read g p = Ok (universal_newlines c)) :
  (forall r, list_MySentences f o r <-> list_MySentences g o r) /\
  (forall r, list_MyText f p t r <-> list_MyText g p t r).
Proof.
  split; intros r.
  - rewrite !ms_drains_iff. unfold ms_expected. rewrite Hlf, Hlg.
    rewrite (ms_collect_ext f g); [reflexivity|]. clear Hlf Hlg.
    induction Hfiles as [|n ns (c' & E1 & E2) _ IH]; [constructor|]. constructor; [|exact IH].
    rewrite E1, E2. symmetry. apply file_lines_universal.
  - rewrite !mt_drains_iff. unfold mt_expected. rewrite Hpf, Hpg.
    now rewrite file_lines_universal.
Qed.

(* ------------------------------------------------------------------ *)
(** ** The further properties at concrete inputs *)

(** Well-formed tokens of a concrete list, character by character. *)
Ltac tokens_ok :=
  repeat (constructor; [split; [discriminate|repeat constructor]|]); constructor.

(** A concrete string without the character [x]. *)
Ltac no_char_tac :=
  unfold no_char; simpl; intros Hin;
  repeat (destruct Hin as [Hin|Hin]; [discriminate Hin|]); exact Hin.

Lemma split_join_roundtrip_witness :
  Forall token_ok ["first"; "sentence"] /\
  py_split (String.concat " " ["first"; "sentence"]) = ["first"; "sentence"].
Proof. split; [tokens_ok|apply (proj1 split_join_roundtrip); tokens_ok]. Defined.

Lemma MyText_tokens_lowercase_witness :
  list_MyText lee_demo_fs lee_path mkMyText (Ok [["hello"; "world"]]) /\
  Forall (Forall lowercase) [["hello"; "world"]].
Proof.
  assert (H : list_MyText lee_demo_fs lee_path mkMyText (Ok [["hello"; "world"]]))
    by (apply mt_drains_iff; reflexivity).
  split; [exact H|exact (MyText_tokens_lowercase _ _ _ _ H)].
Defined.

Lemma universal_newlines_spec_witness :
  no_char CR (universal_newlines (String.append "a" CRLF)) /\
  universal_newlines "ab" = "ab".
Proof.
  split; [exact (proj1 (universal_newlines_spec _))|].
  apply (proj2 (universal_newlines_spec "ab")). no_char_tac.
Defined.


Lemma toy_data_rerun_idempotent_witness :
  cell_toy_data empty_cwd toy_sentences = Ok toy_data_fs /\
  cell_toy_data toy_data_fs toy_sentences = Ok toy_data_fs.
Proof.
  assert (H : cell_toy_data empty_cwd toy_sentences = Ok toy_data_fs) by reflexivity.
  split; [exact H|exact (toy_data_rerun_idempotent _ _ _ H)].
Defined.

Lemma toy_data_uses_first_two_witness :
  2 <= length toy_sentences /\
  cell_toy_data_run empty_cwd (toy_sentences ++ [["more"]])%list =
    cell_toy_data_run empty_cwd toy_sentences /\
  (exists g, cell_toy_data_run empty_cwd [] = (g, Err IndexError) /\
     g !! "./data/f1.txt" = Some (File "")) /\
  (exists h, cell_toy_data_run empty_cwd [["first"]] = (h, Err IndexError) /\
     h !! "./data/f2.txt" = Some (File "")).
Proof.
  destruct toy_data_uses_first_two as (A & B & C & D).
  split; [exact (A empty_cwd toy_sentences toy_data_fs eq_refl)|].
  split; [exact (B empty_cwd _ _ [["more"]])|].
  set (F0 := <["./data" := Dir []]> (<["." := Dir ["data"]]> empty_cwd)).
  set (G1 := <["./data/f1.txt" := File ""]> (<["./data" := Dir ["f1.txt"]]> F0)).
  set (W1 := <["./data/f1.txt" := File (tokens_text ["first"])]> G1).
  set (G2 := <["./data/f2.txt" := File ""]> (<["./data" := Dir ["f1.txt"; "f2.txt"]]> W1)).
  assert (H0 : make_data_dir empty_cwd = Ok F0) by (vm_compute; reflexivity).
  assert (H1 : open_write F0 "./data/f1.txt" = Ok G1) by (vm_compute; reflexivity).
  assert (H2 : write_tokens F0 "./data/f1.txt" ["first"] = Ok W1) by (vm_compute; reflexivity).
  assert (H3 : open_write W1 "./data/f2.txt" = Ok G2) by (vm_compute; reflexivity).
  split; [exists G1; exact (C empty_cwd F0 G1 H0 H1)|].
  exists G2. exact (D empty_cwd F0 ["first"] W1 G2 H0 H2 H3).
Defined.

Lemma toy_data_frame_witness :
  snd (cell_toy_data_run (<["./other.txt" := File "x"]> empty_cwd) []) = Err IndexError /\
  fst (cell_toy_data_run (<["./other.txt" := File "x"]> empty_cwd) []) !! "./other.txt" =
    Some (File "x").
Proof.
  destruct (cell_toy_data_run (<["./other.txt" := File "x"]> empty_cwd) []) as [f' r] eqn:H.
  split; [rewrite <- H; vm_compute; reflexivity|]. simpl.
  rewrite (toy_data_frame _ _ _ _ H "./other.txt") by discriminate.
  vm_compute. reflexivity.
Defined.

Lemma MySentences_stops_at_unreadable_witness :
  (exists g', yields (ms_next mixed_fs) (MySentences_iter (mkMySentences "corpus"))
                [["x"; "y"]; []] g' /\ ms_next mixed_fs g' = Raise IsADirectoryError) /\
  list_MySentences mixed_fs (mkMySentences "corpus") (Err IsADirectoryError).
Proof.
  destruct (MySentences_stops_at_unreadable mixed_fs (mkMySentences "corpus") ["a.txt"] "sub" []
              [corpus_a] IsADirectoryError eq_refl ltac:(repeat constructor) eq_refl) as [Y L].
  split; [exact Y|]. apply L. reflexivity.
Defined.

Lemma MyText_ignores_file_case_witness :
  list_MyText (<[lee_path := File (String.append "hello world" NL)]> lee_demo_fs)
    lee_path mkMyText (Ok [["hello"; "world"]]).
Proof.
  assert (Hg : open_read (<[lee_path := File (String.append "hello world" NL)]> lee_demo_fs)
                 lee_path = Ok (py_lower (String.append "Hello World" NL)))
    by (vm_compute; reflexivity).
  apply (MyText_ignores_file_case lee_demo_fs
           (<[lee_path := File (String.append "hello world" NL)]> lee_demo_fs)
           lee_path (String.append "Hello World" NL) mkMyText eq_refl Hg).
  apply mt_drains_iff. reflexivity.
Defined.

Lemma MySentences_trailing_slash_witness :
  list_MySentences toy_data_fs (mkMySentences "./data") (Ok cell7_output).
Proof.
  apply (MySentences_trailing_slash toy_data_fs "./data" ltac:(discriminate) eq_refl).
  apply ms_drains_iff. vm_compute. reflexivity.
Defined.

Lemma iterators_wrong_kind_witness :
  list_MySentences corpus_fs (mkMySentences "corpus/b.txt") (Err NotADirectoryError) /\
  list_MyText corpus_fs "corpus" mkMyText (Err IsADirectoryError).
Proof.
  destruct (iterators_wrong_kind corpus_fs "corpus/b.txt" "corpus" "last line" ["a.txt"; "b.txt"]
              mkMyText eq_refl eq_refl) as (_ & A & _ & B).
  split; [apply A|apply B]; reflexivity.
Defined.

Lemma toy_data_errors_witness :
  cell_toy_data_run (<["./data" := File "x"]> empty_cwd) toy_sentences =
    (<["./data" := File "x"]> empty_cwd, Err FileExistsError) /\
  cell_toy_data_run (<["./data/f1.txt" := Dir []]> (<["./data" := Dir ["f1.txt"]]> empty_cwd))
    toy_sentences =
    (<["./data/f1.txt" := Dir []]> (<["./data" := Dir ["f1.txt"]]> empty_cwd),
     Err IsADirectoryError) /\
  exists g,
    cell_toy_data_run (<["./data/f2.txt" := Dir []]> (<["./data" := Dir ["f2.txt"]]> empty_cwd))
      toy_sentences = (g, Err IsADirectoryError) /\
    g !! "./data/f1.txt" = Some (File (tokens_text ["first"; "sentence"])).
Proof.
  split; [|split].
  - apply (proj1 (toy_data_errors _) [] "x"); reflexivity.
  - apply (proj1 (proj2 (toy_data_errors _)) ["f1.txt"] []); reflexivity.
  - apply (proj2 (proj2 (toy_data_errors _)) ["f2.txt"] []); [reflexivity| |reflexivity].
    intros ns1 H. discriminate H.
Defined.

Lemma toy_data_post_witness :
  toy_data_fs !! "./data/f1.txt" = Some (File (tokens_text ["first"; "sentence"])) /\
  toy_data_fs !! "./data/f2.txt" = Some (File (tokens_text ["second"; "sentence"])) /\
  exists ns, os_listdir toy_data_fs "./data/" = Ok ns /\ In "f1.txt" ns /\ In "f2.txt" ns.
Proof.
  exact (toy_data_post empty_cwd ["first"; "sentence"] ["second"; "sentence"] [] toy_data_fs
           eq_refl).
Defined.

Lemma iterators_read_only_their_files_witness :
  list_MySentences (<["./notes.txt" := File "z"]> toy_data_fs) (mkMySentences "./data/")
    (Ok cell7_output).
Proof.
  assert (H : os_listdir toy_data_fs "./data/" =
               os_listdir (<["./notes.txt" := File "z"]> toy_data_fs) "./data/" /\
               (forall ns, os_listdir toy_data_fs "./data/" = Ok ns ->
                  Forall (fun n => open_read toy_data_fs (path_join "./data/" n) =
                     open_read (<["./notes.txt" := File "z"]> toy_data_fs)
                       (path_join "./data/" n)) ns) /\
               open_read toy_data_fs lee_path =
               open_read (<["./notes.txt" := File "z"]> toy_data_fs) lee_path).
  { split; [vm_compute; reflexivity|split; [|vm_compute; reflexivity]].
    intros ns E. vm_compute in E. injection E as <-.
    constructor; [vm_compute; reflexivity|constructor; [vm_compute; reflexivity|constructor]]. }
  destruct H as (Hl & Hf & Hp).
  apply (proj1 (iterators_read_only_their_files toy_data_fs
                  (<["./notes.txt" := File "z"]> toy_data_fs) (mkMySentences "./data/")
                  lee_path mkMyText Hl Hf Hp)).
  apply ms_drains_iff. vm_compute. reflexivity.
Defined.

Lemma iterators_ignore_line_endings_witness :
  list_MySentences unix_fs (mkMySentences "d") (Ok [["a"; "B"]; ["c"]]) /\
  list_MyText unix_fs "d/a.txt" mkMyText (Ok [["a"; "b"]; ["c"]]).
Proof.
  destruct (iterators_ignore_line_endings dos_fs unix_fs (mkMySentences "d") ["a.txt"] "d/a.txt"
              (String.append "a B" (String.append CRLF (String.append "c" CRLF))) mkMyText)
    as [A B]; [reflexivity|reflexivity| |reflexivity|reflexivity| ].
  - constructor; [|constructor]. eexists. split; reflexivity.
  - split; [apply A, ms_drains_iff|apply B, mt_drains_iff]; vm_compute; reflexivity.
Defined.

(* ------------------------------------------------------------------ *)
(** ** Sanity checks of the primitives *)

Example split_tab_example :
  py_split ("  a b" ++ String (ascii_of_nat 9) "c  ") = ["a"; "b"; "c"].
Proof. reflexivity. Qed.

Example lines_crlf_example :
  file_lines ("x y" ++ String CR (String LF "z")) = ["x y" ++ String LF ""; "z"].
Proof. reflexivity. Qed.

Example join_example : path_join "./data/" "f1.txt" = "./data/f1.txt".
Proof. reflexivity. Qed.

Example parent_example : parent_of "./data/f1.txt" = ("./data", "f1.txt").
Proof. reflexivity. Qed.

Example makedirs_example :
  os_makedirs empty_cwd "./data/"
  = Ok (<["./data" := Dir []]> (<["." := Dir ["data"]]> empty_cwd)).
Proof. reflexivity. Qed.

Example lower_example : py_lower "Hello World" = "hello world".
Proof. reflexivity. Qed.
